(** * Session authentication of the userbase server (src/server/auth.js)

    A shallow embedding of the four request handlers [signUp], [signIn],
    [signOut] and [authenticateUser] and of [createSession].  The handlers
    are thin orchestration over external services, so the embedding has
    three layers:

    - JavaScript data: values, objects (string-keyed maps), Error objects;
    - the services the module imports: the DynamoDB document client
      (tables as finite maps, [get]/[put]/[update]), bcrypt, the clock,
      the random sources, and the Express response object, whose method
      calls are recorded in order;
    - the handlers, written in a state-and-exception monad that follows
      the [try]/[catch] structure of the source.

    Every handler is run as one atomic step on the store. *)

From Stdlib Require Import ZArith String Ascii Lia DecimalString.
From Stdlib.Strings Require Import Byte.
From stdpp Require Import base option list gmap strings relations.

Local Open Scope string_scope.
Local Open Scope Z_scope.

(** ** JavaScript data *)

Inductive value :=
| VUndefined
| VNull
| VBool (b : bool)
| VNum (n : Z)
| VStr (s : string).

#[global] Instance value_eq_dec : EqDecision value.
Proof. solve_decision. Defined.

(** A JS object used as a record: a finite map from property names. *)
Abbreviation object := (gmap string value).

(** [o[k]]: a missing property reads as [undefined]. *)
Definition prop (o : object) (k : string) : value :=
  default VUndefined (o !! k).

(** ToBoolean, as used by [if (x)] and [!x]. *)
Definition truthy (v : value) : bool :=
  match v with
  | VUndefined | VNull => false
  | VBool b => b
  | VNum n => negb (n =? 0)
  | VStr s => negb (String.eqb s "")
  end.

(** An Error object: the fields the handlers read. *)
Record JsError := mkError {
  name : string;
  message : string;
  statusCode : option Z
}.

(** Error.prototype.toString, which is what [`${e}`] renders. *)
Definition Error_toString (e : JsError) : string :=
  if String.eqb (message e) "" then name e
  else if String.eqb (name e) "" then message e
  else name e +:+ ": " +:+ message e.

(** [e.statusCode || d] *)
Definition statusCode_or (e : JsError) (d : Z) : Z :=
  match statusCode e with
  | Some c => if c =? 0 then d else c
  | None => d
  end.

Definition newError (msg : string) : JsError := mkError "Error" msg None.
Definition newTypeError (msg : string) : JsError := mkError "TypeError" msg None.

(** Numbers that may be NaN ([None]): subtraction and [>]. *)
Definition js_sub (a b : option Z) : option Z :=
  match a, b with
  | Some x, Some y => Some (x - y)
  | _, _ => None
  end.

Definition js_gt (a : option Z) (b : Z) : bool :=
  match a with
  | Some x => b <? x
  | None => false
  end.

(** TimeClip: a time value beyond 8.64e15 ms is an invalid date. *)
Definition timeClip (t : Z) : option Z :=
  if Z.abs t <=? 8640000000000000 then Some t else None.

(** Buffer.toString('hex') *)
Definition hexDigit (n : N) : ascii :=
  match String.get (N.to_nat n) "0123456789abcdef" with
  | Some c => c
  | None => "0"%char
  end.

Definition hexByte (b : byte) : string :=
  let n := Byte.to_N b in
  String (hexDigit (n / 16)) (String (hexDigit (n mod 16)) EmptyString).

Definition toHex (bs : list byte) : string :=
  foldr (fun b s => hexByte b +:+ s) "" bs.

(** ** Constants of the module *)

Definition SALT_ROUNDS : Z := 10.
Definition ACCEPTABLE_RANDOM_BYTES_FOR_SAFE_SESSION_ID : nat := 16.
Definition SESSION_COOKIE_NAME : string := "sessionId".
Definition oneDayMs : Z := 1000 * 60 * 60 * 24.
Definition SESSION_LENGTH : Z := oneDayMs.

(** ** The imported services *)

(** Library functions the module calls and that are fixed for the life of
    the process: String.prototype.toLowerCase, bcrypt, Date, and the
    [statusCodes] table imported from ./statusCodes. *)
Record Platform := mkPlatform {
  toLowerCase : string -> string;
  (** digest of [data] at cost [rounds] with the given salt bytes *)
  bcrypt_hash : string -> Z -> string -> string;
  bcrypt_compare : string -> string -> bool;
  toISOString : Z -> string;
  Date_parse : string -> option Z;
  statusCodes : string -> Z
}.

(** The two tables named by setup.usersTableName and
    setup.sessionsTableName. *)
Inductive table := Users | Sessions.

#[global] Instance table_eq_dec : EqDecision table.
Proof. solve_decision. Defined.

(** The partition key of each table, as the [Key] parameters name it. *)
Definition keyName (t : table) : string :=
  match t with
  | Users => "username"
  | Sessions => "session-id"
  end.

(** A call that leaves the process. *)
Inductive call :=
| BcryptHash (data : value) (rounds : Z)
| BcryptCompare (data hash : value)
| DdbGet (t : table) (key : value)
| DdbPut (t : table) (item : object) (ifAbsent : bool)
| DdbUpdate (t : table) (key : value) (attr : string) (v : value).

(** What one request observes of its environment: the clock, the random
    sources, the process environment, and which external calls fail for
    reasons outside the module (network, throttling, ...). *)
Record Env := mkEnv {
  now : Z;
  randomBytes : nat -> list byte;
  uuidv4 : string;
  bcryptSalt : string;
  NODE_ENV : value;
  fault : call -> option JsError
}.

(** The store: items by partition key. *)
Record World := mkWorld {
  users : gmap string object;
  sessions : gmap string object
}.

Definition table_of (t : table) (w : World) : gmap string object :=
  match t with
  | Users => users w
  | Sessions => sessions w
  end.

Definition set_table (t : table) (m : gmap string object) (w : World) : World :=
  match t with
  | Users => mkWorld m (sessions w)
  | Sessions => mkWorld (users w) m
  end.

(** Options of [res.cookie]. *)
Record CookieOptions := mkCookieOptions {
  maxAge : Z;
  httpOnly : bool;
  sameSite : string;
  secure : bool
}.

(** What a handler does to the response object and to the middleware
    chain, in order. *)
Inductive effect :=
| Status (code : option Z)
| Send (body : object)
| Json (body : object)
| Cookie (cname cvalue : string) (opts : CookieOptions)
| ClearCookie (cname : string)
| SetLocalsUserId (v : value)
| Next.

(** ** The handler monad: state and exceptions *)

Inductive outcome (A : Type) :=
| Ret (a : A)
| Throw (e : JsError).
Arguments Ret {A} a.
Arguments Throw {A} e.

Record St := mkSt {
  tables : World;
  calls : list call;
  out : list effect
}.

Definition M (A : Type) : Type := St -> outcome A * St.

Definition ret {A} (a : A) : M A := fun st => (Ret a, st).
Definition throw {A} (e : JsError) : M A := fun st => (Throw e, st).

Definition bind {A B} (m : M A) (k : A -> M B) : M B :=
  fun st =>
    match m st with
    | (Ret a, st') => k a st'
    | (Throw e, st') => (Throw e, st')
    end.

(** [try { m } catch (e) { h e }] *)
Definition try_catch {A} (m : M A) (h : JsError -> M A) : M A :=
  fun st =>
    match m st with
    | (Ret a, st') => (Ret a, st')
    | (Throw e, st') => h e st'
    end.

Definition lift {A} (r : outcome A) : M A := fun st => (r, st).

Declare Scope js_scope.
Delimit Scope js_scope with js.
Notation "'let!' x := m 'in' k" := (bind m (fun x => k))
  (at level 10, x name, m at level 100, k at level 200, only parsing) : js_scope.
Notation "'run' m ; k" := (bind m (fun _ => k))
  (at level 10, m at level 100, k at level 200, only parsing) : js_scope.

(** A call on the response object (or [next()]) is recorded and returns.
    The record is of the calls the handler makes, in order.  What Express
    does with a call made after the response has gone out, or with a status
    that is not a valid code, is not modelled: where such a call would
    throw, the record is that of the program only up to that call. *)
Definition emit (e : effect) : M unit :=
  fun st => (Ret tt, mkSt (tables st) (calls st) (out st ++ [e])).

(** [res.status(code).send(body)]: the two calls, in order. *)
Definition respond (code : option Z) (body : object) : M unit :=
  (run emit (Status code) ; emit (Send body))%js.

(** ** DynamoDB document client and bcrypt *)

Definition conditionalCheckFailed : JsError :=
  mkError "ConditionalCheckFailedException" "The conditional request failed" (Some 400).

Definition validationException : JsError :=
  mkError "ValidationException" "The provided key element does not match the schema" (Some 400).

(** [get]: the stored item, if any.  A key that is not a string is
    rejected by the service. *)
Definition ddb_get_run (t : table) (key : value) (w : World)
  : outcome (option object) * World :=
  match key with
  | VStr k => (Ret (table_of t w !! k), w)
  | _ => (Throw validationException, w)
  end.

(** [put]: stores the item under its key, replacing any item there.  With
    the condition [attribute_not_exists(<key>)] the call fails when an item
    is already stored under the key (every stored item carries its key
    attribute). *)
Definition ddb_put_run (t : table) (item : object) (ifAbsent : bool) (w : World)
  : outcome unit * World :=
  match prop item (keyName t) with
  | VStr k =>
      if ifAbsent && bool_decide (is_Some (table_of t w !! k))
      then (Throw conditionalCheckFailed, w)
      else (Ret tt, set_table t (<[k := item]> (table_of t w)) w)
  | _ => (Throw validationException, w)
  end.

(** [update] with [set attr = v]: edits the item in place, or adds a new
    item holding the key and the attribute when none is stored. *)
Definition ddb_update_run (t : table) (key : value) (attr : string) (v : value)
    (w : World) : outcome unit * World :=
  match key with
  | VStr k =>
      let old := default {[ keyName t := VStr k ]} (table_of t w !! k) in
      (Ret tt, set_table t (<[k := <[attr := v]> old]> (table_of t w)) w)
  | _ => (Throw validationException, w)
  end.

Section Handlers.

Variable P : Platform.
Variable env : Env.

(** [bcrypt.hash(data, rounds)] and [bcrypt.compare(data, hash)] reject
    arguments that are not strings. *)
Definition bcrypt_hash_run (data : value) (rounds : Z) : outcome string :=
  match data with
  | VStr s => Ret (bcrypt_hash P s rounds (bcryptSalt env))
  | VUndefined | VNull => Throw (newError "data and salt arguments required")
  | _ => Throw (newError
      "data must be a string and salt must either be a salt string or a number of rounds")
  end.

Definition bcrypt_compare_run (data hash : value) : outcome bool :=
  match data, hash with
  | VStr d, VStr h => Ret (bcrypt_compare P d h)
  | (VUndefined | VNull), _ | _, (VUndefined | VNull) =>
      Throw (newError "data and hash arguments required")
  | _, _ => Throw (newError "data and hash must be strings")
  end.

(** [v.toLowerCase()] *)
Definition toLowerCase_run (v : value) : outcome string :=
  match v with
  | VStr s => Ret (toLowerCase P s)
  | VUndefined =>
      Throw (newTypeError "Cannot read property 'toLowerCase' of undefined")
  | VNull =>
      Throw (newTypeError "Cannot read property 'toLowerCase' of null")
  | _ => Throw (newTypeError "username.toLowerCase is not a function")
  end.

(** [new Date(v)] as a time value. *)
Definition newDate (v : value) : option Z :=
  match v with
  | VUndefined => None
  | VNull => Some 0
  | VBool b => Some (if b then 1 else 0)
  | VNum n => timeClip n
  | VStr s => Date_parse P s
  end.

(** An external call: recorded, then either failed by the environment,
    in which case the service has done nothing, or carried out. *)
Definition external {A} (c : call) (service : World -> outcome A * World) : M A :=
  fun st =>
    let st1 := mkSt (tables st) (calls st ++ [c]) (out st) in
    match fault env c with
    | Some e => (Throw e, st1)
    | None =>
        let (r, w') := service (tables st1) in
        (r, mkSt w' (calls st1) (out st1))
    end.

Definition ddb_get (t : table) (key : value) : M (option object) :=
  external (DdbGet t key) (ddb_get_run t key).

Definition ddb_put (t : table) (item : object) (ifAbsent : bool) : M unit :=
  external (DdbPut t item ifAbsent) (ddb_put_run t item ifAbsent).

Definition ddb_update (t : table) (key : value) (attr : string) (v : value) : M unit :=
  external (DdbUpdate t key attr v) (ddb_update_run t key attr v).

Definition bcrypt_hash_call (data : value) (rounds : Z) : M string :=
  external (BcryptHash data rounds) (fun w => (bcrypt_hash_run data rounds, w)).

Definition bcrypt_compare_call (data hash : value) : M bool :=
  external (BcryptCompare data hash) (fun w => (bcrypt_compare_run data hash, w)).

(** ** The handlers *)

Record Request := mkRequest {
  body_username : value;
  body_password : value;
  cookies_sessionId : value
}.

Definition newSessionId : string :=
  toHex (randomBytes env ACCEPTABLE_RANDOM_BYTES_FOR_SAFE_SESSION_ID).

Definition newSession (userId : value) : object :=
  {[ "session-id" := VStr newSessionId;
     "user-id" := userId;
     "creation-date" := VStr (toISOString P (now env)) ]}.

Definition cookieResponseHeaders : CookieOptions :=
  {| maxAge := SESSION_LENGTH;
     httpOnly := true;
     sameSite := "Strict";
     secure := bool_decide (NODE_ENV env = VStr "production") |}.

(** The [catch] branch returns [false] early; the flag [stored] carries
    that return past the [try]. *)
Definition createSession (userId : value) : M bool :=
  (let! stored :=
     try_catch
       (run ddb_put Sessions (newSession userId) false ; ret true)
       (fun e =>
          run respond (statusCode e)
                {[ "err" := VStr ("Failed to create session with " +:+ Error_toString e) ]} ;
          ret false) in
   if (stored : bool)
   then run emit (Cookie SESSION_COOKIE_NAME newSessionId cookieResponseHeaders) ; ret true
   else ret false)%js.

Definition newUser (lower passwordHash : string) : object :=
  {[ "username" := VStr lower;
     "password-hash" := VStr passwordHash;
     "user-id" := VStr (uuidv4 env) ]}.

(** The two lines both sign-up and sign-in end with. *)
Definition finish (user : object) : M unit :=
  (let! successfullyCreatedSession := createSession (prop user "user-id") in
   if (successfullyCreatedSession : bool)
   then emit (Json user)
   else throw (newError "Failed to create session"))%js.

(** The inner [catch] returns the Conflict response early; the flag
    [inserted] carries that return past the inner [try]. *)
Definition signUp (req : Request) : M unit :=
  let username := body_username req in
  let password := body_password req in
  try_catch
    (let! passwordHash := bcrypt_hash_call password SALT_ROUNDS in
     let! lower := lift (toLowerCase_run username) in
     let user := newUser lower passwordHash in
     let! inserted :=
       try_catch
         (run ddb_put Users user true ; ret true)
         (fun e =>
            if String.eqb (name e) "ConditionalCheckFailedException"
            then
              run respond (Some (statusCodes P "Conflict"))
                    {[ "err" := VStr ("Failed to sign up with error " +:+ Error_toString e);
                       "readableMessage" := VStr "Username already exists" ]} ;
              ret false
            else throw e) in
     if (inserted : bool) then finish user else ret tt)%js
    (fun e =>
       respond (Some (statusCode_or e (statusCodes P "Internal Server Error")))
         {[ "err" := VStr ("Failed to sign up with " +:+ Error_toString e) ]}).

(** [username.toLowerCase()] is evaluated while [params] is built, before
    the [try]: its TypeError is not caught. *)
Definition signIn (req : Request) : M unit :=
  let username := body_username req in
  let password := body_password req in
  (let! lower := lift (toLowerCase_run username) in
   try_catch
     (let! userResponse := ddb_get Users (VStr lower) in
      match userResponse with
      | None =>
          respond (Some (statusCodes P "Not Found"))
            {[ "readableMessage" := VStr "Username not found" ]}
      | Some user =>
          let! passwordMatch :=
            bcrypt_compare_call password (prop user "password-hash") in
          if negb passwordMatch
          then respond (Some (statusCodes P "Unauthorized"))
                 {[ "readableMessage" := VStr "Incorrect password" ]}
          else finish user
      end)
     (fun e =>
        respond (Some (statusCode_or e (statusCodes P "Internal Server Error")))
          {[ "err" := VStr ("Failed to sign up with " +:+ Error_toString e) ]}))%js.

Definition signOut (req : Request) : M unit :=
  let sessionId := cookies_sessionId req in
  try_catch
    (run ddb_update Sessions sessionId "invalidated" (VBool true) ;
     run emit (ClearCookie SESSION_COOKIE_NAME) ;
     emit (Send {[ "success" := VBool true ]}))%js
    (fun e =>
       respond (Some (statusCode_or e (statusCodes P "Internal Server Error")))
         {[ "err" := VStr ("Failed to sign out with " +:+ Error_toString e) ]}).

Definition sessionExpired (session : object) : bool :=
  js_gt (js_sub (Some (now env)) (newDate (prop session "creation-date"))) SESSION_LENGTH.

Definition authenticateUser (req : Request) : M unit :=
  let sessionId := cookies_sessionId req in
  try_catch
    (let! sessionResponse := ddb_get Sessions sessionId in
     match sessionResponse with
     | None =>
         respond (Some (statusCodes P "Unauthorized"))
           {[ "readableMessage" := VStr "Session does not exist" ]}
     | Some session =>
         if truthy (prop session "invalidated")
         then respond (Some (statusCodes P "Unauthorized"))
                {[ "readableMessage" := VStr "Invalid session" ]}
         else if sessionExpired session
         then respond (Some (statusCodes P "Unauthorized"))
                {[ "readableMessage" := VStr "Session expired" ]}
         else run emit (SetLocalsUserId (prop session "user-id")) ; emit Next
     end)%js
    (fun e =>
       respond (Some (statusCode_or e (statusCodes P "Internal Server Error")))
         {[ "err" := VStr ("Failed to authenticate user with " +:+ Error_toString e) ]}).

End Handlers.

(** A handler run on a store, from a fresh response object. *)
Definition handle (h : M unit) (w : World) : outcome unit * St :=
  h (mkSt w [] []).

Definition result (h : M unit) (w : World) : outcome unit := fst (handle h w).
Definition response (h : M unit) (w : World) : list effect := out (snd (handle h w)).
Definition store_after (h : M unit) (w : World) : World := tables (snd (handle h w)).
Definition trace (h : M unit) (w : World) : list call := calls (snd (handle h w)).

(** A request that carries only the session cookie, and one that carries
    only a body. *)
Definition withCookie (sessionId : string) : Request :=
  mkRequest VUndefined VUndefined (VStr sessionId).

Definition withBody (username password : value) : Request :=
  mkRequest username password VUndefined.

(** The responses the handlers send. *)
Definition readable (code : Z) (msg : string) : list effect :=
  [Status (Some code); Send {[ "readableMessage" := VStr msg ]}].

Definition unauthorized (P : Platform) (msg : string) : list effect :=
  readable (statusCodes P "Unauthorized") msg.

Definition failure (P : Platform) (what : string) (e : JsError) : list effect :=
  [Status (Some (statusCode_or e (statusCodes P "Internal Server Error")));
   Send {[ "err" := VStr ("Failed to " +:+ what +:+ " with " +:+ Error_toString e) ]}].

Definition authenticatedAs (userId : value) : list effect :=
  [SetLocalsUserId userId; Next].

(** ** Session validity, in the words of the data model *)

Definition creationDate (P : Platform) (session : object) : option Z :=
  newDate P (prop session "creation-date").

Definition not_invalidated (session : object) : Prop :=
  session !! "invalidated" = None \/ session !! "invalidated" = Some (VBool false).

(** Valid at time [T]: the record exists, [invalidated] is false or absent,
    and [T - creationDate <= SESSION_LENGTH]. *)
Definition valid_at (P : Platform) (w : World) (sessionId : string) (T : Z) : Prop :=
  exists session c,
    sessions w !! sessionId = Some session /\
    not_invalidated session /\
    creationDate P session = Some c /\
    T - c <= SESSION_LENGTH.

(** Expired at time [T]: the age of the session exceeds SESSION_LENGTH. *)
Definition expired_at (P : Platform) (session : object) (T : Z) : Prop :=
  exists c, creationDate P session = Some c /\ T - c > SESSION_LENGTH.

(** A stored session item as the module writes them: [invalidated] is
    absent or a boolean, and unless it is [true] the creation date is a
    readable date. *)
Definition well_formed (P : Platform) (session : object) : Prop :=
  match session !! "invalidated" with
  | None | Some (VBool false) => is_Some (creationDate P session)
  | Some (VBool true) => True
  | Some _ => False
  end.

(** ** Sequences of requests *)

Inductive operation := SignUp | SignIn | SignOut | AuthenticateUser.

Definition handler (P : Platform) (env : Env) (o : operation) : Request -> M unit :=
  match o with
  | SignUp => signUp P env
  | SignIn => signIn P env
  | SignOut => signOut P env
  | AuthenticateUser => authenticateUser P env
  end.

(** The session id a request would draw is not in use.  Ids are 16 random
    bytes; the module does not check for collisions. *)
Definition fresh_session_id (env : Env) (w : World) : Prop :=
  sessions w !! newSessionId env = None.

(** One request handled on the store. *)
Inductive step (P : Platform) : World -> World -> Prop :=
| step_request env o req w :
    fresh_session_id env w ->
    step P w (store_after (handler P env o req) w).

(** The store after any number of requests. *)
Definition reachable_from (P : Platform) : World -> World -> Prop := rtc (step P).

(** ** A concrete platform

    An executable instance of the library functions, used to run the
    handlers on concrete requests.  Lower-casing and the date functions
    follow the platform on ASCII strings and on the format [toISOString]
    writes; the digest is a stand-in for bcrypt that keeps its interface
    (salted, and [compare] accepts exactly the digests of the data). *)

Definition lowerAscii (c : ascii) : ascii :=
  let n := nat_of_ascii c in
  if ((65 <=? n) && (n <=? 90))%nat then ascii_of_nat (n + 32) else c.

Fixpoint asciiToLowerCase (s : string) : string :=
  match s with
  | EmptyString => EmptyString
  | String c s' => String (lowerAscii c) (asciiToLowerCase s')
  end.

Definition decimalDigit (n : Z) : ascii := ascii_of_nat (48 + Z.to_nat (n mod 10)).

(** [n] in decimal, on exactly [width] digits. *)
Fixpoint padded (width : nat) (n : Z) : string :=
  match width with
  | O => EmptyString
  | S k => padded k (n / 10) +:+ String (decimalDigit n) EmptyString
  end.

Definition digitValue (c : ascii) : option Z :=
  let n := nat_of_ascii c in
  if ((48 <=? n) && (n <=? 57))%nat then Some (Z.of_nat n - 48) else None.

Fixpoint digitsValue (acc : Z) (s : string) : option Z :=
  match s with
  | EmptyString => Some acc
  | String c s' =>
      match digitValue c with
      | Some d => digitsValue (10 * acc + d) s'
      | None => None
      end
  end.

(** Days since 1970-01-01 to a civil date and back (proleptic Gregorian). *)
Definition civilFromDays (days : Z) : Z * Z * Z :=
  let z := days + 719468 in
  let era := z / 146097 in
  let doe := z - era * 146097 in
  let yoe := (doe - doe / 1460 + doe / 36524 - doe / 146096) / 365 in
  let doy := doe - (365 * yoe + yoe / 4 - yoe / 100) in
  let mp := (5 * doy + 2) / 153 in
  let d := doy - (153 * mp + 2) / 5 + 1 in
  let m := if mp <? 10 then mp + 3 else mp - 9 in
  let y := yoe + era * 400 + (if m <=? 2 then 1 else 0) in
  (y, m, d).

Definition daysFromCivil (y m d : Z) : Z :=
  let y' := if m <=? 2 then y - 1 else y in
  let era := y' / 400 in
  let yoe := y' - era * 400 in
  let doy := (153 * (if 2 <? m then m - 3 else m + 9) + 2) / 5 + d - 1 in
  let doe := yoe * 365 + yoe / 4 - yoe / 100 + doy in
  era * 146097 + doe - 719468.

(** YYYY-MM-DDTHH:mm:ss.sssZ *)
Definition isoString (t : Z) : string :=
  let '(y, m, d) := civilFromDays (t / 86400000) in
  let ms := t mod 86400000 in
  padded 4 y +:+ "-" +:+ padded 2 m +:+ "-" +:+ padded 2 d +:+ "T" +:+
  padded 2 (ms / 3600000) +:+ ":" +:+ padded 2 (ms / 60000 mod 60) +:+ ":" +:+
  padded 2 (ms / 1000 mod 60) +:+ "." +:+ padded 3 (ms mod 1000) +:+ "Z".

Definition field (from len : nat) (s : string) : option Z :=
  digitsValue 0 (substring from len s).

Definition parseIsoString (s : string) : option Z :=
  if bool_decide (String.length s = 24%nat /\
                  substring 4 1 s = "-" /\ substring 7 1 s = "-" /\
                  substring 10 1 s = "T" /\ substring 13 1 s = ":" /\
                  substring 16 1 s = ":" /\ substring 19 1 s = "." /\
                  substring 23 1 s = "Z")
  then
    y ← field 0 4 s; m ← field 5 2 s; d ← field 8 2 s;
    hh ← field 11 2 s; mm ← field 14 2 s; ss ← field 17 2 s; f ← field 20 3 s;
    Some (daysFromCivil y m d * 86400000 + hh * 3600000 + mm * 60000 + ss * 1000 + f)
  else None.

Definition standInDigest (data : string) (rounds : Z) (salt : string) : string :=
  "$2b$" +:+ padded 2 rounds +:+ "$" +:+ salt +:+ "$" +:+ data.

Definition standInCompare (data digest : string) : bool :=
  let n := String.length data in
  let k := String.length digest in
  (S n <=? k)%nat && String.eqb (substring (k - S n) (S n) digest) ("$" +:+ data).

(** The HTTP status codes the module looks up by name. *)
Definition httpStatusCodes (reason : string) : Z :=
  if String.eqb reason "Bad Request" then 400
  else if String.eqb reason "Unauthorized" then 401
  else if String.eqb reason "Not Found" then 404
  else if String.eqb reason "Conflict" then 409
  else if String.eqb reason "Internal Server Error" then 500
  else 0.

Definition node : Platform :=
  {| toLowerCase := asciiToLowerCase;
     bcrypt_hash := standInDigest;
     bcrypt_compare := standInCompare;
     toISOString := isoString;
     Date_parse := parseIsoString;
     statusCodes := httpStatusCodes |}.

(** A request environment with no failing service: the clock reads
    2019-09-01T00:00:00.000Z plus [offset] ms and the random source yields
    the byte [seed] repeated. *)
Definition calm (offset : Z) (seed : byte) : Env :=
  {| now := 1567296000000 + offset;
     randomBytes := fun n => repeat seed n;
     uuidv4 := "3b241101-e2bb-4255-8caf-4136c566a962";
     bcryptSalt := "N9qo8uLOickgx2ZMRZoMye";
     NODE_ENV := VStr "production";
     fault := fun _ => None |}.

(** The same, with every service call failing on a timeout. *)
Definition stormy (offset : Z) (seed : byte) : Env :=
  {| now := now (calm offset seed);
     randomBytes := randomBytes (calm offset seed);
     uuidv4 := uuidv4 (calm offset seed);
     bcryptSalt := bcryptSalt (calm offset seed);
     NODE_ENV := NODE_ENV (calm offset seed);
     fault := fun _ => Some (mkError "NetworkingError" "connect ETIMEDOUT" None) |}.

Definition emptyStore : World := mkWorld ∅ ∅.

(** A small history: Alice signs up on the empty store at the reference
    time, drawing the session id [aliceSession]; five seconds later she
    signs out. *)
Definition alice : Request := withBody (VStr "Alice") (VStr "correcthorse").

Definition aliceRecord : object :=
  newUser (calm 0 x2a) "alice"
    (standInDigest "correcthorse" SALT_ROUNDS (bcryptSalt (calm 0 x2a))).

Definition aliceSession : string := newSessionId (calm 0 x2a).

Definition aliceSessionRecord : object :=
  newSession node (calm 0 x2a) (VStr (uuidv4 (calm 0 x2a))).

Definition signedUp : World := store_after (signUp node (calm 0 x2a) alice) emptyStore.

Definition signedOut : World :=
  store_after (signOut node (calm 5000 x00) (withCookie aliceSession)) signedUp.

(** ** The error taxonomy (errors/auth.js)

    The classes the module exports.  Each constructor passes its
    parameters to [Error] and then sets [name], [message] and [status]
    itself; three of them also keep a [username]. *)

Record AuthError := mkAuthError {
  error_name : string;
  error_message : string;
  error_status : value;
  error_username : value
}.

(** [new C(...)] for each exported class [C], with the constructor
    arguments the class reads. *)
Inductive ErrorClass :=
| UsernameAlreadyExists
| UsernameCannotBeBlank
| UsernameTooLong (maxLen : value)
| UsernameMustBeString
| PasswordCannotBeBlank
| PasswordTooShort (minLen : value)
| PasswordTooLong (maxLen : value)
| PasswordMustBeString
| UsernameOrPasswordMismatch
| UserCanceledSignIn (username : value)
| UserAlreadySignedIn (username : value)
| AppIdNotValid (status username : value)
| UserNotSignedIn.

Section Taxonomy.

Variable P : Platform.

(** ToString, as a template literal applies it to [${x}]. *)
Variable String_ : value -> string.

Definition construct (c : ErrorClass) : AuthError :=
  let code reason := VNum (statusCodes P reason) in
  match c with
  | UsernameAlreadyExists =>
      mkAuthError "UsernameAlreadyExists" "Username already exists."
        (code "Conflict") VUndefined
  | UsernameCannotBeBlank =>
      mkAuthError "UsernameCannotBeBlank" "Username cannot be blank."
        (code "Bad Request") VUndefined
  | UsernameTooLong maxLen =>
      mkAuthError "UsernameTooLong"
        ("Username too long. Must be a max of " +:+ String_ maxLen +:+ " characters.")
        (code "Bad Request") VUndefined
  | UsernameMustBeString =>
      mkAuthError "UsernameMustBeString" "Username must be a string."
        (code "Bad Request") VUndefined
  | PasswordCannotBeBlank =>
      mkAuthError "PasswordCannotBeBlank" "Password cannot be blank."
        (code "Bad Request") VUndefined
  | PasswordTooShort minLen =>
      mkAuthError "PasswordTooShort"
        ("Password too short. Must be a minimum of " +:+ String_ minLen +:+ " characters.")
        (code "Bad Request") VUndefined
  | PasswordTooLong maxLen =>
      mkAuthError "PasswordTooLong"
        ("Password too long. Must be a max of " +:+ String_ maxLen +:+ " characters.")
        (code "Bad Request") VUndefined
  | PasswordMustBeString =>
      mkAuthError "PasswordMustBeString" "Password must be a string."
        (code "Bad Request") VUndefined
  | UsernameOrPasswordMismatch =>
      mkAuthError "UsernameOrPasswordMismatch" "Username or password mismatch."
        (code "Unauthorized") VUndefined
  | UserCanceledSignIn username =>
      mkAuthError "UserCanceledSignIn" "Canceled."
        (code "Bad Request") username
  | UserAlreadySignedIn username =>
      mkAuthError "UserAlreadySignedIn" "User already signed in."
        (code "Bad Request") username
  | AppIdNotValid status username =>
      mkAuthError "AppIdNotValid" "App ID not valid." status username
  | UserNotSignedIn =>
      mkAuthError "UserNotSignedIn" "User is not signed in."
        (code "Bad Request") VUndefined
  end.

End Taxonomy.

(** ToString on the values modelled here; an integer prints in decimal. *)
Definition toStringValue (v : value) : string :=
  match v with
  | VUndefined => "undefined"
  | VNull => "null"
  | VBool true => "true"
  | VBool false => "false"
  | VNum n => NilZero.string_of_int (Z.to_int n)
  | VStr s => s
  end.

(** The class of an error, without its arguments. *)
Definition sameClass (c1 c2 : ErrorClass) : Prop :=
  match c1, c2 with
  | UsernameAlreadyExists, UsernameAlreadyExists
  | UsernameCannotBeBlank, UsernameCannotBeBlank
  | UsernameTooLong _, UsernameTooLong _
  | UsernameMustBeString, UsernameMustBeString
  | PasswordCannotBeBlank, PasswordCannotBeBlank
  | PasswordTooShort _, PasswordTooShort _
  | PasswordTooLong _, PasswordTooLong _
  | PasswordMustBeString, PasswordMustBeString
  | UsernameOrPasswordMismatch, UsernameOrPasswordMismatch
  | UserCanceledSignIn _, UserCanceledSignIn _
  | UserAlreadySignedIn _, UserAlreadySignedIn _
  | AppIdNotValid _ _, AppIdNotValid _ _
  | UserNotSignedIn, UserNotSignedIn => True
  | _, _ => False
  end.

(** The four classes that stand for a rejected password. *)
Definition passwordFailure (c : ErrorClass) : Prop :=
  match c with
  | PasswordCannotBeBlank | PasswordMustBeString
  | PasswordTooShort _ | PasswordTooLong _ => True
  | _ => False
  end.

(** The store after a list of requests, each handled in its own
    environment, in order. *)
Fixpoint serve (P : Platform) (requests : list (Env * operation * Request))
    (w : World) : World :=
  match requests with
  | [] => w
  | (env, o, req) :: rest => serve P rest (store_after (handler P env o req) w)
  end.

Definition throttled : JsError :=
  mkError "ProvisionedThroughputExceededException"
    "The level of configured provisioned throughput for the table was exceeded"
    (Some 400).

(** An environment in which only the sessions table cannot be written. *)
Definition sessionsDown (offset : Z) (seed : byte) : Env :=
  {| now := now (calm offset seed);
     randomBytes := randomBytes (calm offset seed);
     uuidv4 := uuidv4 (calm offset seed);
     bcryptSalt := bcryptSalt (calm offset seed);
     NODE_ENV := NODE_ENV (calm offset seed);
     fault := fun c =>
       match c with
       | DdbPut Sessions _ _ => Some throttled
       | _ => None
       end |}.

(** After her sign-up, Alice signs out and signs in again under another
    spelling of her name. *)
Definition history : list (Env * operation * Request) :=
  [(calm 5000 x00, SignOut, withCookie aliceSession);
   (calm 60000 x07, SignIn, withBody (VStr "ALICE") (VStr "correcthorse"))].

(** Every stored item carries its own key: a user record is the three
    attributes [signUp] writes, with [username] the key it is stored
    under, and a session item has [session-id] equal to its key. *)
Definition keyed (w : World) : Prop :=
  (forall k user,
     users w !! k = Some user ->
     exists h uid,
       user = {[ "username" := VStr k;
                 "password-hash" := VStr h;
                 "user-id" := VStr uid ]}) /\
  (forall sid session,
     sessions w !! sid = Some session ->
     prop session "session-id" = VStr sid).

(** * Properties *)

Example isoString_example :
  isoString 1567296000000 = "2019-09-01T00:00:00.000Z" /\
  parseIsoString "2019-09-01T00:00:00.000Z" = Some 1567296000000.
Proof. split; vm_compute; reflexivity. Qed.

(** ** Running the handlers symbolically *)

Ltac js_unfold :=
  cbv beta iota zeta delta
    [result response store_after trace handle handler withCookie withBody
     signUp signIn signOut authenticateUser createSession finish respond emit
     try_catch bind ret throw lift external
     ddb_get ddb_put ddb_update bcrypt_hash_call bcrypt_compare_call
     ddb_get_run ddb_put_run ddb_update_run
     bcrypt_hash_run bcrypt_compare_run toLowerCase_run
     body_username body_password cookies_sessionId
     tables calls out fst snd table_of set_table users sessions andb];
  cbn [app].

Lemma prop_newUser_key env lower h :
  prop (newUser env lower h) (keyName Users) = VStr lower.
Proof. unfold prop, newUser, keyName. by simplify_map_eq. Qed.

Lemma prop_newUser_userId env lower h :
  prop (newUser env lower h) "user-id" = VStr (uuidv4 env).
Proof. unfold prop, newUser. by simplify_map_eq. Qed.

Lemma prop_newUser_hash env lower h :
  prop (newUser env lower h) "password-hash" = VStr h.
Proof. unfold prop, newUser. by simplify_map_eq. Qed.

Lemma prop_newSession_key P env uid :
  prop (newSession P env uid) (keyName Sessions) = VStr (newSessionId env).
Proof. unfold prop, newSession, keyName. by simplify_map_eq. Qed.

Lemma prop_newSession_userId P env uid :
  prop (newSession P env uid) "user-id" = uid.
Proof. unfold prop, newSession. by simplify_map_eq. Qed.

Lemma prop_newSession_creationDate P env uid :
  prop (newSession P env uid) "creation-date" = VStr (toISOString P (now env)).
Proof. unfold prop, newSession. by simplify_map_eq. Qed.

Lemma prop_newSession_invalidated P env uid :
  prop (newSession P env uid) "invalidated" = VUndefined.
Proof. unfold prop, newSession. by simplify_map_eq. Qed.

(** [createSession] in closed form: one [put], then either the cookie or
    the failure response. *)
Lemma createSession_run P env uid st :
  createSession P env uid st =
  let c := DdbPut Sessions (newSession P env uid) false in
  match fault env c with
  | None =>
      (Ret true,
       mkSt (mkWorld (users (tables st))
               (<[newSessionId env := newSession P env uid]> (sessions (tables st))))
            (calls st ++ [c])
            (out st ++ [Cookie SESSION_COOKIE_NAME (newSessionId env)
                          (cookieResponseHeaders env)]))
  | Some e =>
      (Ret false,
       mkSt (tables st) (calls st ++ [c])
            (out st ++
             [Status (statusCode e);
              Send {[ "err" := VStr ("Failed to create session with " +:+ Error_toString e) ]}]))
  end.
Proof.
  destruct st as [[us ss] cs os]. js_unfold.
  destruct (fault env _) as [e|]; js_unfold.
  - by rewrite <- app_assoc.
  - rewrite prop_newSession_key. js_unfold. reflexivity.
Qed.

(** Symbolic execution of a whole handler: unfold, use the closed form
    of [createSession], and split on whatever the run depends on. *)
Ltac js_cbv :=
  cbv beta iota zeta delta
    [result response store_after trace handle handler withCookie withBody
     signUp signIn signOut authenticateUser finish respond emit
     try_catch bind ret throw lift external
     ddb_get ddb_put ddb_update bcrypt_hash_call bcrypt_compare_call
     ddb_get_run ddb_put_run ddb_update_run
     bcrypt_hash_run bcrypt_compare_run toLowerCase_run
     conditionalCheckFailed validationException newError newTypeError
     body_username body_password cookies_sessionId
     tables calls out fst snd table_of set_table users sessions andb];
  cbn [app negb name String.eqb Ascii.eqb Bool.eqb].

Ltac js_open :=
  js_cbv;
  repeat (progress rewrite ?createSession_run, ?prop_newUser_key, ?prop_newUser_userId;
          js_cbv).

Ltac js_case :=
  match goal with
  | |- context [match fault ?e ?c with _ => _ end] => destruct (fault e c) eqn:?
  | |- context [match ?v with VUndefined => _ | _ => _ end] =>
      is_var v; destruct v
  | |- context [match ?v with VUndefined => _ | _ => _ end] =>
      destruct v eqn:?
  | |- context [if bool_decide ?p then _ else _] => destruct (bool_decide p) eqn:?
  | |- context [if String.eqb ?a ?b then _ else _] => destruct (String.eqb a b) eqn:?
  | |- context [match ?m !! ?k with _ => _ end] => destruct (m !! k) eqn:?
  | |- context [if negb ?b then _ else _] => destruct b eqn:?
  end.

Ltac js_run := js_open; repeat (js_case; js_open).

(** [authenticateUser] in closed form when the [get] goes through. *)
Lemma authenticateUser_run P env w sid :
  fault env (DdbGet Sessions (VStr sid)) = None ->
  handle (authenticateUser P env (withCookie sid)) w =
  (Ret tt,
   mkSt w [DdbGet Sessions (VStr sid)]
     match sessions w !! sid with
     | None => unauthorized P "Session does not exist"
     | Some session =>
         if truthy (prop session "invalidated")
         then unauthorized P "Invalid session"
         else if sessionExpired P env session
         then unauthorized P "Session expired"
         else authenticatedAs (prop session "user-id")
     end).
Proof.
  intros Hget. destruct w as [us ss]. js_unfold. rewrite Hget. js_unfold.
  destruct (ss !! sid) as [session|]; js_unfold; [|reflexivity].
  destruct (truthy _); js_unfold; [reflexivity|].
  destruct (sessionExpired _ _ _); js_unfold; reflexivity.
Qed.

Lemma authenticateUser_response P env w sid :
  fault env (DdbGet Sessions (VStr sid)) = None ->
  response (authenticateUser P env (withCookie sid)) w =
  match sessions w !! sid with
  | None => unauthorized P "Session does not exist"
  | Some session =>
      if truthy (prop session "invalidated")
      then unauthorized P "Invalid session"
      else if sessionExpired P env session
      then unauthorized P "Session expired"
      else authenticatedAs (prop session "user-id")
  end.
Proof.
  intros Hget. unfold response. by rewrite authenticateUser_run.
Qed.

(** The code's expiry test is the 24-hour rule. *)
Lemma sessionExpired_true P env session :
  sessionExpired P env session = true <-> expired_at P session (now env).
Proof.
  unfold sessionExpired, expired_at, creationDate, js_gt, js_sub.
  destruct (newDate P _) as [c|]; split.
  - intros H%Z.ltb_lt. exists c. split; [done | lia].
  - intros (c' & [= <-] & H). apply Z.ltb_lt. lia.
  - done.
  - by intros (c' & [=] & _).
Qed.

Lemma sessionExpired_false P env session c :
  creationDate P session = Some c ->
  sessionExpired P env session = false <-> now env - c <= SESSION_LENGTH.
Proof.
  unfold sessionExpired, creationDate, js_gt, js_sub. intros ->.
  rewrite Z.ltb_ge. done.
Qed.

Lemma Next_not_unauthorized P msg : ~ In Next (unauthorized P msg).
Proof. unfold unauthorized, readable. intros [H|[H|[]]]; discriminate. Qed.

Lemma not_invalidated_truthy session :
  not_invalidated session -> truthy (prop session "invalidated") = false.
Proof. unfold prop. by intros [-> | ->]. Qed.

(** [signOut] in closed form. *)
Lemma signOut_run P env w sid :
  handle (signOut P env (withCookie sid)) w =
  let c := DdbUpdate Sessions (VStr sid) "invalidated" (VBool true) in
  match fault env c with
  | None =>
      (Ret tt,
       mkSt (mkWorld (users w)
               (<[sid := <["invalidated" := VBool true]>
                           (default {[ "session-id" := VStr sid ]} (sessions w !! sid))]>
                  (sessions w)))
            [c]
            [ClearCookie SESSION_COOKIE_NAME; Send {[ "success" := VBool true ]}])
  | Some e => (Ret tt, mkSt w [c] (failure P "sign out" e))
  end.
Proof.
  destruct w as [us ss]. js_unfold.
  destruct (fault env _) as [e|]; js_unfold; reflexivity.
Qed.

(** ** authenticateUser *)

(** C2. When the session lookup goes through, [authenticateUser] checks in
    this order: no session record: Unauthorized, "Session does not exist";
    else [invalidated] is true: Unauthorized, "Invalid session"; else the
    session is older than SESSION_LENGTH: Unauthorized, "Session expired";
    else it stores the session's user id in [res.locals] and calls
    [next()]. *)
Theorem authenticateUser_checks_in_order P env w sid :
  fault env (DdbGet Sessions (VStr sid)) = None ->
  let r := response (authenticateUser P env (withCookie sid)) w in
  (sessions w !! sid = None ->
     r = unauthorized P "Session does not exist") /\
  (forall session,
     sessions w !! sid = Some session ->
     truthy (prop session "invalidated") = true ->
     r = unauthorized P "Invalid session") /\
  (forall session,
     sessions w !! sid = Some session ->
     truthy (prop session "invalidated") = false ->
     expired_at P session (now env) ->
     r = unauthorized P "Session expired") /\
  (forall session,
     sessions w !! sid = Some session ->
     truthy (prop session "invalidated") = false ->
     ~ expired_at P session (now env) ->
     r = authenticatedAs (prop session "user-id") /\
     result (authenticateUser P env (withCookie sid)) w = Ret tt).
Proof.
  intros Hget r. subst r. unfold result.
  rewrite authenticateUser_response, authenticateUser_run by done.
  split; [|split; [|split]].
  - by intros ->.
  - by intros session -> ->.
  - intros session -> -> Hexp%sessionExpired_true. by rewrite Hexp.
  - intros session -> -> Hexp.
    destruct (sessionExpired P env session) eqn:E; [|done].
    by apply sessionExpired_true in E.
Qed.

(** C1. With the lookup going through and the stored item well formed,
    [authenticateUser] lets the request through at time T exactly when the
    session is valid at T: the record exists, [invalidated] is false or
    absent, and T - creationDate <= SESSION_LENGTH, which is 24 hours.  For
    a session that [createSession] stored at time T0 (whose ISO date reads
    back as T0), a request at T0 + d passes when d <= SESSION_LENGTH and
    is answered "Session expired" when d > SESSION_LENGTH: it passes at
    23h59m and at exactly 24h, and fails at 24h plus 1 ms and at 24h01m. *)
Theorem session_valid_for_SESSION_LENGTH P :
  SESSION_LENGTH = 24 * 60 * 60 * 1000 /\
  (forall env w sid,
     fault env (DdbGet Sessions (VStr sid)) = None ->
     (forall session, sessions w !! sid = Some session -> well_formed P session) ->
     In Next (response (authenticateUser P env (withCookie sid)) w)
     <-> valid_at P w sid (now env)) /\
  (forall env0 userId w st env,
     createSession P env0 userId (mkSt w [] []) = (Ret true, st) ->
     Date_parse P (toISOString P (now env0)) = Some (now env0) ->
     fault env (DdbGet Sessions (VStr (newSessionId env0))) = None ->
     let r := response (authenticateUser P env (withCookie (newSessionId env0))) (tables st) in
     let d := now env - now env0 in
     (d <= SESSION_LENGTH -> r = authenticatedAs userId) /\
     (d > SESSION_LENGTH -> r = unauthorized P "Session expired") /\
     (d = 23 * 3600000 + 59 * 60000 -> r = authenticatedAs userId) /\
     (d = SESSION_LENGTH -> r = authenticatedAs userId) /\
     (d = SESSION_LENGTH + 1 -> r = unauthorized P "Session expired") /\
     (d = 24 * 3600000 + 1 * 60000 -> r = unauthorized P "Session expired")).
Proof.
  split; [reflexivity|]. split.
  - intros env w sid Hget Hwf.
    rewrite authenticateUser_response by done. unfold valid_at.
    destruct (sessions w !! sid) as [session|] eqn:Hs.
    + specialize (Hwf session eq_refl). unfold well_formed in Hwf.
      destruct (truthy (prop session "invalidated")) eqn:Hinv.
      * split; [by intros ?%Next_not_unauthorized|].
        intros (s & c & [= <-] & Hni%not_invalidated_truthy & _). congruence.
      * assert (not_invalidated session /\ is_Some (creationDate P session))
          as [Hni [c Hc]].
        { unfold not_invalidated, prop in *.
          destruct (session !! "invalidated") as [[| |[]| |]|]; naive_solver. }
        destruct (sessionExpired P env session) eqn:Hexp.
        -- split; [by intros ?%Next_not_unauthorized|].
           intros (s & c' & [= <-] & _ & Hc' & Hle).
           apply (sessionExpired_false P env) in Hc'. apply Hc' in Hle. congruence.
        -- split; [|intros _; unfold authenticatedAs; simpl; tauto].
           intros _. exists session, c. repeat split; try done.
           by apply (sessionExpired_false P env session c).
    + split; [by intros ?%Next_not_unauthorized|].
      by intros (s & c & [=] & _).
  - intros env0 userId w st env Hcreate Hdate Hget r d.
    rewrite createSession_run in Hcreate. cbn zeta in Hcreate.
    destruct (fault env0 _); [discriminate|].
    injection Hcreate as <-. subst r. cbn [tables].
    rewrite authenticateUser_response by done. cbn [sessions].
    rewrite lookup_insert_eq.
    rewrite prop_newSession_invalidated, prop_newSession_userId. cbn [truthy].
    assert (creationDate P (newSession P env0 userId) = Some (now env0)) as Hc.
    { unfold creationDate. rewrite prop_newSession_creationDate. exact Hdate. }
    assert (d <= SESSION_LENGTH -> sessionExpired P env (newSession P env0 userId) = false)
      as Hin by (intros; by apply (sessionExpired_false P env _ _ Hc)).
    assert (d > SESSION_LENGTH -> sessionExpired P env (newSession P env0 userId) = true)
      as Hout.
    { intros. apply sessionExpired_true. by exists (now env0). }
    unfold SESSION_LENGTH, oneDayMs in *.
    repeat split; intros Hd;
      first [ rewrite Hin by lia | rewrite Hout by lia ]; reflexivity.
Qed.

(** ** signOut *)

(** C9. For every session id, whether or not a record is stored under it
    and whether or not it is already invalidated, [signOut] clears the
    session cookie and sends [{ success: true }] once the store update has
    gone through.  It fails only when the update call fails, and then
    answers with the error's status code, or Internal Server Error when
    the error carries none, leaving the store as it was. *)
Theorem signOut_succeeds_unless_update_fails P env w sid :
  let c := DdbUpdate Sessions (VStr sid) "invalidated" (VBool true) in
  let h := signOut P env (withCookie sid) in
  let success := [ClearCookie "sessionId"; Send {[ "success" := VBool true ]}] in
  trace h w = [c] /\
  (fault env c = None -> response h w = success /\ result h w = Ret tt) /\
  (forall e, fault env c = Some e ->
     response h w =
       [Status (Some (statusCode_or e (statusCodes P "Internal Server Error")));
        Send {[ "err" := VStr ("Failed to sign out with " +:+ Error_toString e) ]}] /\
     store_after h w = w /\
     (forall code, statusCode e = Some code -> code <> 0 ->
        statusCode_or e (statusCodes P "Internal Server Error") = code) /\
     (statusCode e = None ->
        statusCode_or e (statusCodes P "Internal Server Error") =
        statusCodes P "Internal Server Error")) /\
  (response h w <> success -> is_Some (fault env c)).
Proof.
  intros c h success. subst h.
  unfold trace, response, result, store_after. rewrite signOut_run.
  cbn zeta. fold c. destruct (fault env c) as [e|] eqn:Hc; cbn [fst snd out calls tables].
  - split; [done|]. split; [done|]. split; [|by eauto].
    intros e' [= <-]. split; [reflexivity|]. split; [reflexivity|]. split.
    + intros code Hcode Hnz. unfold statusCode_or. rewrite Hcode.
      by destruct (Z.eqb_spec code 0).
    + intros Hnone. unfold statusCode_or. by rewrite Hnone.
  - split; [done|]. split; [done|]. split; [done|]. intros H. by destruct H.
Qed.

(** ** How requests change the sessions table *)

Lemma signUp_sessions P env req w :
  let w' := store_after (signUp P env req) w in
  sessions w' = sessions w \/
  exists uid, sessions w' = <[newSessionId env := newSession P env uid]> (sessions w).
Proof. destruct w as [us ss], req as [un pw ck]. js_run; eauto. Qed.

Lemma signIn_sessions P env req w :
  let w' := store_after (signIn P env req) w in
  sessions w' = sessions w \/
  exists uid, sessions w' = <[newSessionId env := newSession P env uid]> (sessions w).
Proof. destruct w as [us ss], req as [un pw ck]. js_run; eauto. Qed.

Lemma signOut_sessions P env req w :
  let w' := store_after (signOut P env req) w in
  sessions w' = sessions w \/
  exists sid,
    sessions w' =
    <[sid := <["invalidated" := VBool true]>
               (default {[ "session-id" := VStr sid ]} (sessions w !! sid))]> (sessions w).
Proof. destruct w as [us ss], req as [un pw ck]. js_run; eauto. Qed.

Lemma authenticateUser_store P env req w :
  store_after (authenticateUser P env req) w = w.
Proof.
  destruct w as [us ss], req as [un pw ck]. js_run; try reflexivity.
  all: destruct (truthy _); [|destruct (sessionExpired _ _ _)]; reflexivity.
Qed.

(** Across one request a stored session item stays, either as it was or
    with [invalidated] set to [true]; only [signOut] changes it. *)
Lemma step_session P env o req w sid session :
  fresh_session_id env w ->
  sessions w !! sid = Some session ->
  let w' := store_after (handler P env o req) w in
  (o <> SignOut -> sessions w' !! sid = Some session) /\
  (sessions w' !! sid = Some session \/
   sessions w' !! sid = Some (<["invalidated" := VBool true]> session)).
Proof.
  intros Hfresh Hs w'. unfold fresh_session_id in Hfresh.
  assert (newSessionId env <> sid) as Hne by congruence.
  assert (forall uid,
    (<[newSessionId env := newSession P env uid]> (sessions w)) !! sid = Some session)
    as Hins by (intros; by rewrite lookup_insert_ne).
  subst w'. destruct o; cbn [handler].
  - destruct (signUp_sessions P env req w) as [-> | [uid ->]]; auto.
  - destruct (signIn_sessions P env req w) as [-> | [uid ->]]; auto.
  - split; [done|].
    destruct (signOut_sessions P env req w) as [-> | [sid' ->]]; [auto|].
    destruct (decide (sid' = sid)) as [-> | Hne'].
    + right. by rewrite lookup_insert_eq, Hs.
    + left. by rewrite lookup_insert_ne.
  - rewrite authenticateUser_store. auto.
Qed.

Lemma insert_invalidated_twice (session : object) :
  <["invalidated" := VBool true]> (<["invalidated" := VBool true]> session) =
  <["invalidated" := VBool true]> session.
Proof. apply insert_insert_eq. Qed.

(** The same across any number of requests. *)
Lemma reachable_session P w w' sid session :
  reachable_from P w w' ->
  sessions w !! sid = Some session ->
  sessions w' !! sid = Some session \/
  sessions w' !! sid = Some (<["invalidated" := VBool true]> session).
Proof.
  unfold reachable_from. intros Hreach. revert session.
  induction Hreach as [w | w w1 w' Hstep _ IH]; intros session Hs; [by left|].
  destruct Hstep as [env o req w Hfresh].
  destruct (step_session P env o req w sid session Hfresh Hs) as [_ [H1 | H1]].
  - by apply IH.
  - destruct (IH _ H1) as [H2 | H2]; right; [done|].
    by rewrite insert_invalidated_twice in H2.
Qed.

(** Well-formedness of the stored session items is kept by every request,
    on a platform whose dates read back from their ISO form. *)
Section WellFormedStore.

Variable P : Platform.
Hypothesis Date_roundtrip : forall t, Date_parse P (toISOString P t) = Some t.

Lemma newSession_well_formed env uid : well_formed P (newSession P env uid).
Proof.
  unfold well_formed, creationDate.
  replace (newSession P env uid !! "invalidated") with (@None value)
    by (unfold newSession; by simplify_map_eq).
  rewrite prop_newSession_creationDate. cbn [newDate].
  rewrite Date_roundtrip. eauto.
Qed.

Lemma invalidated_well_formed (session : object) :
  well_formed P (<["invalidated" := VBool true]> session).
Proof. unfold well_formed. by rewrite lookup_insert_eq. Qed.

Lemma step_well_formed w w' :
  step P w w' ->
  (forall sid session, sessions w !! sid = Some session -> well_formed P session) ->
  (forall sid session, sessions w' !! sid = Some session -> well_formed P session).
Proof.
  intros [env o req w0 _] Hwf sid session.
  assert (forall uid,
    (<[newSessionId env := newSession P env uid]> (sessions w0)) !! sid = Some session ->
    well_formed P session) as Hins.
  { intros uid. rewrite lookup_insert. case_decide.
    - intros [= <-]. apply newSession_well_formed.
    - apply Hwf. }
  destruct o; cbn [handler].
  - destruct (signUp_sessions P env req w0) as [-> | [uid ->]]; eauto.
  - destruct (signIn_sessions P env req w0) as [-> | [uid ->]]; eauto.
  - destruct (signOut_sessions P env req w0) as [-> | [sid' ->]]; [eauto|].
    rewrite lookup_insert. case_decide.
    + intros [= <-]. apply invalidated_well_formed.
    + apply Hwf.
  - rewrite authenticateUser_store. apply Hwf.
Qed.

Lemma reachable_well_formed w0 w :
  reachable_from P w0 w ->
  (forall sid session, sessions w0 !! sid = Some session -> well_formed P session) ->
  (forall sid session, sessions w !! sid = Some session -> well_formed P session).
Proof.
  unfold reachable_from.
  induction 1 as [w | w0 w1 w Hstep _ IH]; intros Hwf; [exact Hwf|].
  apply IH. by apply (step_well_formed w0 w1).
Qed.

Lemma reachable_from_empty_well_formed w sid session :
  reachable_from P (mkWorld ∅ ∅) w ->
  sessions w !! sid = Some session ->
  well_formed P session.
Proof.
  intros Hreach. apply (reachable_well_formed _ _ Hreach).
  intros sid' session'. cbn [sessions]. by rewrite lookup_empty.
Qed.

End WellFormedStore.

Lemma prop_insert_invalidated (session : object) k :
  k <> "invalidated" ->
  prop (<["invalidated" := VBool true]> session) k = prop session k.
Proof. intros Hk. unfold prop. by rewrite lookup_insert_ne. Qed.

Lemma prop_invalidated_set (session : object) :
  prop (<["invalidated" := VBool true]> session) "invalidated" = VBool true.
Proof. unfold prop. by rewrite lookup_insert_eq. Qed.

(** C8. Over every store reachable by requests to this module (whose
    drawn session ids are not already in use), a stored session record is
    never removed and never changes, except that [signOut] may set its
    [invalidated] attribute to [true].  Its session id, user id and
    creation date are never rewritten, every other attribute keeps its
    value, and a record that is invalidated stays invalidated: nothing
    sets the flag back. *)
Theorem session_record_immutable_but_invalidated P w sid session :
  sessions w !! sid = Some session ->
  (forall env o req,
     fresh_session_id env w ->
     let w' := store_after (handler P env o req) w in
     (o <> SignOut -> sessions w' !! sid = Some session) /\
     (sessions w' !! sid = Some session \/
      sessions w' !! sid = Some (<["invalidated" := VBool true]> session))) /\
  (forall w',
     reachable_from P w w' ->
     exists session',
       sessions w' !! sid = Some session' /\
       (session' = session \/ session' = <["invalidated" := VBool true]> session) /\
       prop session' "session-id" = prop session "session-id" /\
       prop session' "user-id" = prop session "user-id" /\
       prop session' "creation-date" = prop session "creation-date" /\
       (forall k, k <> "invalidated" -> session' !! k = session !! k) /\
       (truthy (prop session "invalidated") = true ->
        truthy (prop session' "invalidated") = true) /\
       (prop session "invalidated" = VBool true -> session' = session)).
Proof.
  intros Hs. split.
  - intros env o req Hfresh. by apply step_session.
  - intros w' Hreach.
    destruct (reachable_session P w w' sid session Hreach Hs) as [H | H];
      eexists; (split; [exact H|]).
    + repeat split; auto.
    + split; [by right|].
      rewrite !prop_insert_invalidated by done.
      rewrite prop_invalidated_set.
      repeat split; try done.
      * intros k Hk. by rewrite lookup_insert_ne.
      * unfold prop. intros Hinv. apply insert_id.
        destruct (session !! "invalidated") as [v|]; simpl in Hinv; congruence.
Qed.

(** C3. Once [signOut] has gone through for the id of a stored session,
    every later [authenticateUser] with that id whose lookup goes through
    is answered Unauthorized, "Invalid session": whatever requests were
    handled in between and whatever the time, inside the 24 hours or past
    them. *)
Theorem authenticateUser_after_signOut P env w sid :
  is_Some (sessions w !! sid) ->
  fault env (DdbUpdate Sessions (VStr sid) "invalidated" (VBool true)) = None ->
  let w1 := store_after (signOut P env (withCookie sid)) w in
  forall w2 env',
    reachable_from P w1 w2 ->
    fault env' (DdbGet Sessions (VStr sid)) = None ->
    response (authenticateUser P env' (withCookie sid)) w2 =
      unauthorized P "Invalid session" /\
    In (Send {[ "readableMessage" := VStr "Invalid session" ]})
       (response (authenticateUser P env' (withCookie sid)) w2).
Proof.
  intros [session Hs] Hupd w1 w2 env' Hreach Hget.
  assert (sessions w1 !! sid = Some (<["invalidated" := VBool true]> session)) as H1.
  { subst w1. unfold store_after. rewrite signOut_run. cbn zeta. rewrite Hupd.
    cbn [snd tables sessions]. by rewrite lookup_insert_eq, Hs. }
  assert (exists session', sessions w2 !! sid = Some session' /\
            prop session' "invalidated" = VBool true) as (session' & H2 & Hinv).
  { destruct (reachable_session P w1 w2 sid _ Hreach H1) as [H | H];
      eexists; (split; [exact H|]).
    - apply prop_invalidated_set.
    - rewrite insert_invalidated_twice. apply prop_invalidated_set. }
  rewrite authenticateUser_response by done. rewrite H2, Hinv. cbn [truthy].
  split; [reflexivity|]. unfold unauthorized, readable. simpl. auto.
Qed.

(** ** signUp and signIn *)

Ltac js_known :=
  match goal with
  | H : forall c, fault ?e c = None |- context [fault ?e ?c] => rewrite (H c)
  | H : fault ?e ?c = _ |- context [fault ?e ?c] => rewrite H
  | H : ?m !! ?k = _ |- context [?m !! ?k] => rewrite H
  | H : prop ?o ?k = _ |- context [prop ?o ?k] => rewrite H
  | H : bcrypt_compare ?P ?a ?b = _ |- context [bcrypt_compare ?P ?a ?b] => rewrite H
  end.

Ltac js_eval := js_open; repeat (first [js_known | js_case]; js_open).

(** Closes a branch of a run that sent no [Json] body. *)
Ltac no_json :=
  let H := fresh in
  intros H; cbn [In] in H; decompose [or] H; try discriminate; try contradiction.

Lemma is_Some_lookup_false {A} (m : gmap string A) k :
  bool_decide (is_Some (m !! k)) = false -> m !! k = None.
Proof. intros H%bool_decide_eq_false. by apply eq_None_not_Some. Qed.

Lemma prop_VStr_lookup (o : object) k s :
  prop o k = VStr s -> o !! k = Some (VStr s).
Proof. unfold prop. destruct (o !! k); simpl; congruence. Qed.

(** A sign-up that answered with a user record ran the whole happy path. *)
Lemma signUp_success_inv P env req w user :
  In (Json user) (response (signUp P env req) w) ->
  exists u p,
    body_username req = VStr u /\ body_password req = VStr p /\
    user = newUser env (toLowerCase P u) (bcrypt_hash P p SALT_ROUNDS (bcryptSalt env)) /\
    users w !! toLowerCase P u = None /\
    handle (signUp P env req) w =
    (Ret tt,
     mkSt (mkWorld (<[toLowerCase P u := user]> (users w))
             (<[newSessionId env := newSession P env (VStr (uuidv4 env))]> (sessions w)))
          [BcryptHash (VStr p) SALT_ROUNDS;
           DdbPut Users user true;
           DdbPut Sessions (newSession P env (VStr (uuidv4 env))) false]
          [Cookie SESSION_COOKIE_NAME (newSessionId env) (cookieResponseHeaders env);
           Json user]).
Proof.
  destruct w as [us ss], req as [un pw ck]. js_run; no_json.
  match goal with H : Json _ = Json _ |- _ => injection H as <- end.
  eexists _, _. repeat split; try done. by apply is_Some_lookup_false.
Qed.

(** The happy path of sign-up. *)
Lemma signUp_success P env w u p ck :
  (forall c, fault env c = None) ->
  users w !! toLowerCase P u = None ->
  let user := newUser env (toLowerCase P u) (bcrypt_hash P p SALT_ROUNDS (bcryptSalt env)) in
  handle (signUp P env (mkRequest (VStr u) (VStr p) ck)) w =
  (Ret tt,
   mkSt (mkWorld (<[toLowerCase P u := user]> (users w))
           (<[newSessionId env := newSession P env (VStr (uuidv4 env))]> (sessions w)))
        [BcryptHash (VStr p) SALT_ROUNDS;
         DdbPut Users user true;
         DdbPut Sessions (newSession P env (VStr (uuidv4 env))) false]
        [Cookie SESSION_COOKIE_NAME (newSessionId env) (cookieResponseHeaders env);
         Json user]).
Proof.
  intros Hcalm Hfree user. subst user. destruct w as [us ss]. cbn [users] in Hfree.
  js_eval; [|reflexivity].
  match goal with H : bool_decide _ = true |- _ =>
    apply bool_decide_eq_true in H; rewrite ?Hfree in H; by destruct H end.
Qed.

(** A sign-in that answered with a user record fetched it from the users
    table and matched the password against its hash. *)
Lemma signIn_success_inv P env req w user :
  In (Json user) (response (signIn P env req) w) ->
  exists u p h,
    body_username req = VStr u /\ body_password req = VStr p /\
    users w !! toLowerCase P u = Some user /\
    prop user "password-hash" = VStr h /\
    bcrypt_compare P p h = true /\
    response (signIn P env req) w =
      [Cookie SESSION_COOKIE_NAME (newSessionId env) (cookieResponseHeaders env);
       Json user].
Proof.
  destruct w as [us ss], req as [un pw ck]. js_run; no_json.
  match goal with H : Json _ = Json _ |- _ => injection H as <- end.
  eexists _, _, _. repeat split; try done.
Qed.

(** The happy path of sign-in. *)
Lemma signIn_success P env w u p ck user h :
  (forall c, fault env c = None) ->
  users w !! toLowerCase P u = Some user ->
  prop user "password-hash" = VStr h ->
  bcrypt_compare P p h = true ->
  handle (signIn P env (mkRequest (VStr u) (VStr p) ck)) w =
  (Ret tt,
   mkSt (mkWorld (users w)
           (<[newSessionId env := newSession P env (prop user "user-id")]> (sessions w)))
        [DdbGet Users (VStr (toLowerCase P u));
         BcryptCompare (VStr p) (VStr h);
         DdbPut Sessions (newSession P env (prop user "user-id")) false]
        [Cookie SESSION_COOKIE_NAME (newSessionId env) (cookieResponseHeaders env);
         Json user]).
Proof.
  intros Hcalm Hu Hh Hmatch. destruct w as [us ss]. cbn [users] in Hu.
  js_eval. reflexivity.
Qed.

(** C10. Whenever [signUp] or [signIn] answers with a JSON user record,
    that record is the stored one, hash included: for [signUp] it is the
    record just inserted in the users table under the lower-cased
    username, whose 'password-hash' is the bcrypt digest of the password;
    for [signIn] it is the record fetched from the users table, and it
    carries the 'password-hash' the password was compared with.  The body
    is sent as it is: the response ends with that record. *)
Theorem success_body_is_stored_record_with_hash P env req w user :
  (In (Json user) (response (signUp P env req) w) ->
   exists u p,
     body_username req = VStr u /\ body_password req = VStr p /\
     users w !! toLowerCase P u = None /\
     users (store_after (signUp P env req) w) !! toLowerCase P u = Some user /\
     user !! "password-hash" =
       Some (VStr (bcrypt_hash P p SALT_ROUNDS (bcryptSalt env))) /\
     last (response (signUp P env req) w) = Some (Json user)) /\
  (In (Json user) (response (signIn P env req) w) ->
   exists u h,
     body_username req = VStr u /\
     users w !! toLowerCase P u = Some user /\
     user !! "password-hash" = Some (VStr h) /\
     last (response (signIn P env req) w) = Some (Json user)).
Proof.
  split.
  - intros (u & p & Hu & Hp & -> & Hfree & Hrun)%signUp_success_inv.
    exists u, p. unfold store_after, response. rewrite Hrun. cbn [snd tables users out].
    split; [done|]. split; [done|]. split; [done|]. split; [|split].
    + by rewrite lookup_insert_eq.
    + apply prop_VStr_lookup, prop_newUser_hash.
    + reflexivity.
  - intros (u & p & h & Hu & Hp & Hrec & Hh & _ & ->)%signIn_success_inv.
    exists u, h. repeat split; try done. by apply prop_VStr_lookup.
Qed.

(** C6. If [signUp] answered with a user record, then [signIn] with the
    same username and password right after it, with no service failing
    and bcrypt accepting the digest it made of the password, also answers
    with a user record: the same record, so the same user id, which is
    the one [signUp] drew. *)
Theorem signIn_after_signUp_same_user P env1 env2 w username password ck1 ck2 user :
  In (Json user) (response (signUp P env1 (mkRequest username password ck1)) w) ->
  (forall p, password = VStr p ->
     bcrypt_compare P p (bcrypt_hash P p SALT_ROUNDS (bcryptSalt env1)) = true) ->
  (forall c, fault env2 c = None) ->
  let w1 := store_after (signUp P env1 (mkRequest username password ck1)) w in
  let h2 := signIn P env2 (mkRequest username password ck2) in
  response h2 w1 =
    [Cookie SESSION_COOKIE_NAME (newSessionId env2) (cookieResponseHeaders env2);
     Json user] /\
  result h2 w1 = Ret tt /\
  prop user "user-id" = VStr (uuidv4 env1).
Proof.
  intros (u & p & Hu & Hp & Huser & Hfree & Hrun)%signUp_success_inv Hbcrypt Hcalm w1 h2.
  cbn [body_username body_password] in Hu, Hp. subst username password.
  specialize (Hbcrypt p eq_refl).
  assert (users w1 !! toLowerCase P u = Some user) as Hstored.
  { subst w1. unfold store_after. rewrite Hrun. cbn [snd tables users].
    by rewrite lookup_insert_eq. }
  assert (prop user "password-hash" =
          VStr (bcrypt_hash P p SALT_ROUNDS (bcryptSalt env1))) as Hhash.
  { subst user. apply prop_newUser_hash. }
  subst h2. unfold response, result.
  rewrite (signIn_success P env2 w1 u p ck2 user _ Hcalm Hstored Hhash Hbcrypt).
  cbn [fst snd out]. repeat split. subst user. apply prop_newUser_userId.
Qed.

(** C7. [signIn], once the user lookup has gone through: when no record
    is stored under the lower-cased username it answers Not Found with
    readableMessage "Username not found"; when a record is stored and
    bcrypt finds that the password does not match its hash it answers
    Unauthorized with readableMessage "Incorrect password".  The two
    answers differ. *)
Theorem signIn_failures P env w u password ck :
  fault env (DdbGet Users (VStr (toLowerCase P u))) = None ->
  let r := response (signIn P env (mkRequest (VStr u) password ck)) w in
  (users w !! toLowerCase P u = None ->
     r = [Status (Some (statusCodes P "Not Found"));
          Send {[ "readableMessage" := VStr "Username not found" ]}]) /\
  (forall user p h,
     users w !! toLowerCase P u = Some user ->
     password = VStr p ->
     prop user "password-hash" = VStr h ->
     fault env (BcryptCompare (VStr p) (VStr h)) = None ->
     bcrypt_compare P p h = false ->
     r = [Status (Some (statusCodes P "Unauthorized"));
          Send {[ "readableMessage" := VStr "Incorrect password" ]}]) /\
  [Status (Some (statusCodes P "Not Found"));
   Send {[ "readableMessage" := VStr "Username not found" ]}] <>
  [Status (Some (statusCodes P "Unauthorized"));
   Send ({[ "readableMessage" := VStr "Incorrect password" ]} : object)].
Proof.
  intros Hget r. subst r. destruct w as [us ss]. cbn [users].
  split; [|split].
  - intros Hnone. js_eval. reflexivity.
  - intros user p h Hu -> Hh Hcmp Hmis. js_eval. reflexivity.
  - intros H.
    apply (f_equal (fun l => match l with
                             | [_; Send o] => o !! "readableMessage"
                             | _ => None
                             end)) in H.
    cbv beta iota in H. rewrite !lookup_singleton_eq in H. discriminate.
Qed.

(** C5. [signUp] with a username whose lower-cased form already has a
    user record never changes the users table, so the stored record and
    its password hash stay as they were.  When the password is a string
    and neither the hash call nor the insert is failed by the
    environment, the conditional insert is refused, [signUp] answers
    Conflict with readableMessage "Username already exists", and it has
    made exactly one [put]: it does not retry. *)
Theorem signUp_existing_username_conflict P env w u password ck user0 :
  users w !! toLowerCase P u = Some user0 ->
  let h := signUp P env (mkRequest (VStr u) password ck) in
  (store_after h w = w /\
   users (store_after h w) !! toLowerCase P u = Some user0) /\
  (forall p,
     password = VStr p ->
     let user := newUser env (toLowerCase P u)
                   (bcrypt_hash P p SALT_ROUNDS (bcryptSalt env)) in
     fault env (BcryptHash (VStr p) SALT_ROUNDS) = None ->
     fault env (DdbPut Users user true) = None ->
     response h w =
       [Status (Some (statusCodes P "Conflict"));
        Send {[ "err" := VStr ("Failed to sign up with error " +:+
                                Error_toString conditionalCheckFailed);
                "readableMessage" := VStr "Username already exists" ]}] /\
     trace h w = [BcryptHash (VStr p) SALT_ROUNDS; DdbPut Users user true] /\
     result h w = Ret tt).
Proof.
  intros Hu h. subst h.
  assert (store_after (signUp P env (mkRequest (VStr u) password ck)) w = w) as Hsame.
  { destruct w as [us ss]. cbn [users] in Hu. js_eval; try reflexivity.
    all: match goal with H : bool_decide _ = false |- _ =>
           apply bool_decide_eq_false in H; destruct H; eauto end. }
  split.
  - split; [exact Hsame|]. by rewrite Hsame.
  - intros p -> user Hhash Hput. subst user.
    destruct w as [us ss]. cbn [users] in Hu.
    js_eval; by repeat split.
Qed.

(** Every body [signUp] passes to [res.send] is an [err] text that begins
    "Failed to ", alone or with the readable message of the Conflict
    answer. *)
Lemma signUp_sent_bodies P env req w body :
  In (Send body) (response (signUp P env req) w) ->
  exists text,
    body = {[ "err" := VStr ("Failed to " +:+ text) ]} \/
    body = {[ "err" := VStr ("Failed to " +:+ text);
              "readableMessage" := VStr "Username already exists" ]}.
Proof.
  destruct w as [us ss], req as [un pw ck]. js_run; no_json.
  all: repeat match goal with H : Send _ = Send _ |- _ => injection H as <- end.
  all: eexists; first [left; reflexivity | right; reflexivity].
Qed.

(** A text that begins "Failed to " or reads "Username already exists" is
    neither the name nor the message of a password failure. *)
Lemma not_a_passwordFailure P String_ c (s : string) :
  passwordFailure c ->
  (exists text, s = "Failed to " +:+ text) \/ s = "Username already exists" ->
  s <> error_name (construct P String_ c) /\ s <> error_message (construct P String_ c).
Proof.
  intros Hc Hs.
  assert (exists rest, s = String "F" rest \/ s = String "U" rest) as (rest & Hrest).
  { destruct Hs as [[text ->] | ->]; eexists; [left | right]; reflexivity. }
  destruct c; try contradiction;
    cbn [construct error_name error_message]; split; intros Heq;
    rewrite Heq in Hrest; destruct Hrest as [Hrest | Hrest]; discriminate Hrest.
Qed.

(** C4, as the code has it.  [signUp] does not validate the password: the
    first thing it does, in every run, is pass it to [bcrypt.hash].  A
    password that is not a string makes that call reject, and [signUp]
    answers with the Internal Server Error status and an [err] text,
    having written nothing.  A string password of any length, the empty
    string included, is hashed, and with a free username and no failing
    service the user record holding that hash is inserted and sent back.
    In every run, whatever the username, the store and the services do,
    each body [signUp] sends is an [err] text beginning "Failed to ", with
    at most the readable message "Username already exists": no attribute
    of it is the name or the message of PasswordCannotBeBlank,
    PasswordMustBeString, PasswordTooShort or PasswordTooLong. *)
Theorem signUp_hashes_password_without_validation P env w username password ck :
  let h := signUp P env (mkRequest username password ck) in
  (exists rest, trace h w = BcryptHash password SALT_ROUNDS :: rest) /\
  ((forall p, password <> VStr p) ->
   fault env (BcryptHash password SALT_ROUNDS) = None ->
   exists msg,
     response h w =
       [Status (Some (statusCodes P "Internal Server Error"));
        Send {[ "err" := VStr ("Failed to sign up with Error: " +:+ msg) ]}] /\
     store_after h w = w /\
     trace h w = [BcryptHash password SALT_ROUNDS]) /\
  (forall u p,
     username = VStr u -> password = VStr p ->
     users w !! toLowerCase P u = None ->
     (forall c, fault env c = None) ->
     let user := newUser env (toLowerCase P u)
                   (bcrypt_hash P p SALT_ROUNDS (bcryptSalt env)) in
     users (store_after h w) !! toLowerCase P u = Some user /\
     response h w =
       [Cookie SESSION_COOKIE_NAME (newSessionId env) (cookieResponseHeaders env);
        Json user]) /\
  (forall body,
     In (Send body) (response h w) ->
     (exists text, body !! "err" = Some (VStr ("Failed to " +:+ text))) /\
     (body !! "readableMessage" = None \/
      body !! "readableMessage" = Some (VStr "Username already exists")) /\
     forall String_ c k,
       passwordFailure c ->
       body !! k <> Some (VStr (error_name (construct P String_ c))) /\
       body !! k <> Some (VStr (error_message (construct P String_ c)))).
Proof.
  intros h. subst h. split; [|split; [|split]].
  - destruct w as [us ss]. js_run; eauto.
  - intros Hnot Hhash. destruct w as [us ss].
    destruct password as [| | b | n | p]; [..|by destruct (Hnot p)];
      js_eval; eexists; (split; [reflexivity|done]).
  - intros u p -> -> Hfree Hcalm user. subst user.
    unfold store_after, response. rewrite signUp_success by done.
    cbn [snd tables users out]. by rewrite lookup_insert_eq.
  - intros body (text & Hbody)%signUp_sent_bodies.
    assert (forall k s, body !! k = Some (VStr s) ->
              (exists text', s = "Failed to " +:+ text') \/
              s = "Username already exists") as Hvalues.
    { intros k s. destruct Hbody as [-> | ->].
      - intros [_ [= <-]]%lookup_singleton_Some. eauto.
      - intros [[_ [= <-]] | [_ [_ [= <-]]%lookup_singleton_Some]]%lookup_insert_Some;
          eauto. }
    split; [|split].
    + exists text. destruct Hbody as [-> | ->]; by simplify_map_eq.
    + destruct Hbody as [-> | ->]; [left | right]; by simplify_map_eq.
    + intros String_ c k Hc.
      split; intros Hk; apply Hvalues in Hk;
        by destruct (not_a_passwordFailure P String_ c _ Hc Hk).
Qed.

(** * The properties on the concrete history *)

Lemma signedUp_session :
  sessions signedUp !! aliceSession = Some aliceSessionRecord.
Proof. reflexivity. Qed.

Lemma signedOut_session :
  sessions signedOut !! aliceSession =
  Some (<["invalidated" := VBool true]> aliceSessionRecord).
Proof. reflexivity. Qed.

Lemma signedUp_user : users signedUp !! "alice" = Some aliceRecord.
Proof. reflexivity. Qed.

Lemma aliceSession_created :
  creationDate node aliceSessionRecord = Some 1567296000000.
Proof. reflexivity. Qed.

Lemma authenticateUser_checks_in_order_witness :
  response (authenticateUser node (calm 0 x00) (withCookie "0000")) emptyStore
    = unauthorized node "Session does not exist" /\
  response (authenticateUser node (calm 9000 x00) (withCookie aliceSession)) signedOut
    = unauthorized node "Invalid session" /\
  response (authenticateUser node (calm 86400001 x00) (withCookie aliceSession)) signedUp
    = unauthorized node "Session expired" /\
  response (authenticateUser node (calm 1000 x00) (withCookie aliceSession)) signedUp
    = authenticatedAs (VStr (uuidv4 (calm 0 x2a))).
Proof.
  split; [|split; [|split]].
  - apply (authenticateUser_checks_in_order node (calm 0 x00) emptyStore "0000");
      reflexivity.
  - apply (authenticateUser_checks_in_order node (calm 9000 x00) signedOut aliceSession
             eq_refl) with (session := <["invalidated" := VBool true]> aliceSessionRecord).
    + exact signedOut_session.
    + reflexivity.
  - apply (authenticateUser_checks_in_order node (calm 86400001 x00) signedUp aliceSession
             eq_refl) with (session := aliceSessionRecord).
    + exact signedUp_session.
    + reflexivity.
    + exists 1567296000000. split; [exact aliceSession_created | reflexivity].
  - pose proof (authenticateUser_checks_in_order node (calm 1000 x00) signedUp
                  aliceSession eq_refl) as (_ & _ & _ & H4).
    destruct (H4 _ signedUp_session) as [Hr _]; [reflexivity| |exact Hr].
    intros (c & Hc & Hgt). rewrite aliceSession_created in Hc. injection Hc as <-.
    vm_compute in Hgt. discriminate.
Defined.

Lemma signedUp_response :
  response (signUp node (calm 0 x2a) alice) emptyStore =
  [Cookie "sessionId" aliceSession (cookieResponseHeaders (calm 0 x2a));
   Json aliceRecord].
Proof. reflexivity. Qed.

Lemma session_valid_for_SESSION_LENGTH_witness :
  (In Next (response (authenticateUser node (calm 1000 x00) (withCookie aliceSession))
              signedUp)
   <-> valid_at node signedUp aliceSession (now (calm 1000 x00))) /\
  (let st := snd (createSession node (calm 0 x2a) (VStr "u-1") (mkSt emptyStore [] [])) in
   let at_ d := response (authenticateUser node (calm d x00) (withCookie aliceSession))
                  (tables st) in
   at_ (23 * 3600000 + 59 * 60000) = authenticatedAs (VStr "u-1") /\
   at_ SESSION_LENGTH = authenticatedAs (VStr "u-1") /\
   at_ (SESSION_LENGTH + 1) = unauthorized node "Session expired" /\
   at_ (24 * 3600000 + 1 * 60000) = unauthorized node "Session expired").
Proof.
  destruct (session_valid_for_SESSION_LENGTH node) as (_ & H1 & H2). split.
  - apply H1; [reflexivity|].
    intros session Hs. rewrite signedUp_session in Hs. injection Hs as <-.
    unfold well_formed.
    replace (aliceSessionRecord !! "invalidated") with (@None value) by reflexivity.
    rewrite aliceSession_created. eauto.
  - intros st at_.
    assert (forall d,
      let r := at_ d in
      (d = 23 * 3600000 + 59 * 60000 -> r = authenticatedAs (VStr "u-1")) /\
      (d = SESSION_LENGTH -> r = authenticatedAs (VStr "u-1")) /\
      (d = SESSION_LENGTH + 1 -> r = unauthorized node "Session expired") /\
      (d = 24 * 3600000 + 1 * 60000 -> r = unauthorized node "Session expired")) as H.
    { intros d.
      pose proof (H2 (calm 0 x2a) (VStr "u-1") emptyStore st (calm d x00)
                    eq_refl eq_refl eq_refl) as H.
      cbv zeta in H. destruct H as (_ & _ & Ha & Hb & Hc & Hd).
      replace (now (calm d x00) - now (calm 0 x2a)) with d in *
        by (cbn [now calm]; lia).
      auto. }
    repeat split; apply H; reflexivity.
Defined.

Lemma authenticateUser_after_signOut_witness :
  response (authenticateUser node (calm 90000000 x00) (withCookie aliceSession))
    (store_after (handler node (calm 7000 x07) SignIn alice) signedOut)
  = unauthorized node "Invalid session".
Proof.
  apply (authenticateUser_after_signOut node (calm 5000 x00) signedUp aliceSession).
  - rewrite signedUp_session. eauto.
  - reflexivity.
  - eapply rtc_l; [|apply rtc_refl].
    apply (step_request node (calm 7000 x07) SignIn alice signedOut). reflexivity.
  - reflexivity.
Defined.

Lemma session_record_immutable_but_invalidated_witness :
  sessions (store_after (handler node (calm 7000 x07) SignIn alice) signedUp)
    !! aliceSession = Some aliceSessionRecord /\
  exists session',
    sessions signedOut !! aliceSession = Some session' /\
    prop session' "session-id" = prop aliceSessionRecord "session-id" /\
    prop session' "user-id" = prop aliceSessionRecord "user-id" /\
    prop session' "creation-date" = prop aliceSessionRecord "creation-date".
Proof.
  destruct (session_record_immutable_but_invalidated node signedUp aliceSession
              aliceSessionRecord signedUp_session) as [H1 H2].
  split.
  - apply H1; [reflexivity | discriminate].
  - destruct (H2 signedOut) as (session' & Hs & _ & Hid & Huid & Hdate & _).
    + eapply rtc_l; [|apply rtc_refl].
      apply (step_request node (calm 5000 x00) SignOut (withCookie aliceSession) signedUp).
      reflexivity.
    + exists session'. auto.
Defined.

Lemma signOut_succeeds_unless_update_fails_witness :
  response (signOut node (calm 0 x00) (withCookie "0000")) emptyStore =
    [ClearCookie "sessionId"; Send {[ "success" := VBool true ]}] /\
  response (signOut node (calm 9000 x00) (withCookie aliceSession)) signedOut =
    [ClearCookie "sessionId"; Send {[ "success" := VBool true ]}] /\
  response (signOut node (stormy 0 x00) (withCookie aliceSession)) signedUp =
    [Status (Some 500);
     Send {[ "err" := VStr "Failed to sign out with NetworkingError: connect ETIMEDOUT" ]}].
Proof.
  split; [|split].
  - apply (signOut_succeeds_unless_update_fails node (calm 0 x00) emptyStore "0000").
    reflexivity.
  - apply (signOut_succeeds_unless_update_fails node (calm 9000 x00) signedOut aliceSession).
    reflexivity.
  - pose proof (signOut_succeeds_unless_update_fails node (stormy 0 x00) signedUp
                  aliceSession) as (_ & _ & H & _).
    destruct (H _ eq_refl) as [Hr _]. exact Hr.
Defined.

Lemma signUp_existing_username_conflict_witness :
  let h := signUp node (calm 60000 x07) (withBody (VStr "ALICE") (VStr "hunter22")) in
  store_after h signedUp = signedUp /\
  users (store_after h signedUp) !! "alice" = Some aliceRecord /\
  response h signedUp =
    [Status (Some 409);
     Send {[ "err" := VStr ("Failed to sign up with error " +:+
                             "ConditionalCheckFailedException: The conditional request failed");
             "readableMessage" := VStr "Username already exists" ]}] /\
  trace h signedUp =
    [BcryptHash (VStr "hunter22") 10;
     DdbPut Users
       (newUser (calm 60000 x07) "alice"
          (standInDigest "hunter22" 10 (bcryptSalt (calm 60000 x07)))) true].
Proof.
  intros h.
  pose proof (signUp_existing_username_conflict node (calm 60000 x07) signedUp "ALICE"
                (VStr "hunter22") VUndefined aliceRecord signedUp_user) as [[Ha Hb] Hc].
  destruct (Hc "hunter22" eq_refl eq_refl eq_refl) as (Hr & Ht & _).
  repeat split; assumption.
Defined.

Lemma signIn_after_signUp_same_user_witness :
  response (signIn node (calm 60000 x07) alice) signedUp =
    [Cookie "sessionId" (newSessionId (calm 60000 x07))
       (cookieResponseHeaders (calm 60000 x07));
     Json aliceRecord] /\
  prop aliceRecord "user-id" = VStr (uuidv4 (calm 0 x2a)).
Proof.
  destruct (signIn_after_signUp_same_user node (calm 0 x2a) (calm 60000 x07) emptyStore
              (VStr "Alice") (VStr "correcthorse") VUndefined VUndefined aliceRecord)
    as (Hr & _ & Hid).
  - change (In (Json aliceRecord) (response (signUp node (calm 0 x2a) alice) emptyStore)).
    rewrite signedUp_response. right. left. reflexivity.
  - intros p [= <-]. reflexivity.
  - intros c. reflexivity.
  - split; assumption.
Defined.

Lemma signIn_failures_witness :
  response (signIn node (calm 0 x00) (withBody (VStr "Bob") (VStr "pw"))) emptyStore =
    [Status (Some 404); Send {[ "readableMessage" := VStr "Username not found" ]}] /\
  response (signIn node (calm 9000 x00) (withBody (VStr "Alice") (VStr "wronghorse")))
    signedUp =
    [Status (Some 401); Send {[ "readableMessage" := VStr "Incorrect password" ]}].
Proof.
  split.
  - apply (signIn_failures node (calm 0 x00) emptyStore "Bob" (VStr "pw") VUndefined);
      reflexivity.
  - pose proof (signIn_failures node (calm 9000 x00) signedUp "Alice" (VStr "wronghorse")
                  VUndefined eq_refl) as (_ & H & _).
    apply (H aliceRecord "wronghorse"
             (standInDigest "correcthorse" 10 (bcryptSalt (calm 0 x2a))));
      reflexivity.
Defined.

Lemma success_body_is_stored_record_with_hash_witness :
  (exists u p,
     body_username alice = VStr u /\ body_password alice = VStr p /\
     users emptyStore !! asciiToLowerCase u = None /\
     users signedUp !! asciiToLowerCase u = Some aliceRecord /\
     aliceRecord !! "password-hash" =
       Some (VStr (standInDigest p 10 (bcryptSalt (calm 0 x2a)))) /\
     last (response (signUp node (calm 0 x2a) alice) emptyStore) = Some (Json aliceRecord)) /\
  (exists u h,
     body_username alice = VStr u /\
     users signedUp !! asciiToLowerCase u = Some aliceRecord /\
     aliceRecord !! "password-hash" = Some (VStr h) /\
     last (response (signIn node (calm 60000 x07) alice) signedUp) = Some (Json aliceRecord)).
Proof.
  split.
  - apply (success_body_is_stored_record_with_hash node (calm 0 x2a) alice emptyStore
             aliceRecord).
    rewrite signedUp_response. right. left. reflexivity.
  - apply (success_body_is_stored_record_with_hash node (calm 60000 x07) alice signedUp
             aliceRecord).
    replace (response (signIn node (calm 60000 x07) alice) signedUp)
      with [Cookie "sessionId" (newSessionId (calm 60000 x07))
              (cookieResponseHeaders (calm 60000 x07));
            Json aliceRecord] by reflexivity.
    right. left. reflexivity.
Defined.

(** C4 as stated fails: a sign-up with the empty password is not turned
    away.  The password is hashed, the user record is written, and the
    answer is the session cookie and the user record, not a failure. *)
Lemma signUp_accepts_blank_password :
  let h := signUp node (calm 0 x2a) (withBody (VStr "Alice") (VStr "")) in
  body_password (withBody (VStr "Alice") (VStr "")) = VStr "" /\
  In (BcryptHash (VStr "") SALT_ROUNDS) (trace h emptyStore) /\
  users (store_after h emptyStore) !! "alice" =
    Some (newUser (calm 0 x2a) "alice" (standInDigest "" 10 (bcryptSalt (calm 0 x2a)))) /\
  users (store_after h emptyStore) <> users emptyStore /\
  response h emptyStore =
    [Cookie "sessionId" aliceSession (cookieResponseHeaders (calm 0 x2a));
     Json (newUser (calm 0 x2a) "alice" (standInDigest "" 10 (bcryptSalt (calm 0 x2a))))] /\
  ~ In (Status (Some (statusCodes node "Bad Request"))) (response h emptyStore).
Proof.
  intros h.
  assert (trace h emptyStore =
          [BcryptHash (VStr "") SALT_ROUNDS;
           DdbPut Users
             (newUser (calm 0 x2a) "alice" (standInDigest "" 10 (bcryptSalt (calm 0 x2a))))
             true;
           DdbPut Sessions aliceSessionRecord false]) as Ht by reflexivity.
  assert (users (store_after h emptyStore) !! "alice" =
          Some (newUser (calm 0 x2a) "alice"
                  (standInDigest "" 10 (bcryptSalt (calm 0 x2a))))) as Hu by reflexivity.
  assert (response h emptyStore =
          [Cookie "sessionId" aliceSession (cookieResponseHeaders (calm 0 x2a));
           Json (newUser (calm 0 x2a) "alice"
                   (standInDigest "" 10 (bcryptSalt (calm 0 x2a))))]) as Hr by reflexivity.
  split; [reflexivity|]. split; [rewrite Ht; left; reflexivity|].
  split; [exact Hu|]. split; [|split; [exact Hr|]].
  - intros Heq. rewrite Heq in Hu. discriminate.
  - rewrite Hr. intros [H|[H|[]]]; discriminate.
Defined.

Lemma signUp_hashes_password_without_validation_witness :
  (exists msg,
     response (signUp node (calm 0 x2a) (withBody (VStr "Alice") (VNum 12345678)))
       emptyStore =
     [Status (Some 500);
      Send {[ "err" := VStr ("Failed to sign up with Error: " +:+ msg) ]}]) /\
  users (store_after (signUp node (calm 0 x2a) (withBody (VStr "Alice") (VStr "")))
           emptyStore) !! "alice" =
    Some (newUser (calm 0 x2a) "alice" (standInDigest "" 10 (bcryptSalt (calm 0 x2a)))) /\
  (forall body,
     In (Send body)
        (response (signUp node (calm 60000 x07) (withBody (VStr "ALICE") (VStr "")))
           signedUp) ->
     forall k,
       body !! k <> Some (VStr "PasswordCannotBeBlank") /\
       body !! k <> Some (VStr "Password cannot be blank.")).
Proof.
  split; [|split].
  - pose proof (signUp_hashes_password_without_validation node (calm 0 x2a) emptyStore
                  (VStr "Alice") (VNum 12345678) VUndefined) as (_ & H & _).
    destruct H as (msg & Hr & _); [discriminate | reflexivity |].
    exists msg. exact Hr.
  - pose proof (signUp_hashes_password_without_validation node (calm 0 x2a) emptyStore
                  (VStr "Alice") (VStr "") VUndefined) as (_ & _ & H & _).
    apply (H "Alice" ""); reflexivity.
  - intros body Hin k.
    pose proof (signUp_hashes_password_without_validation node (calm 60000 x07) signedUp
                  (VStr "ALICE") (VStr "") VUndefined) as (_ & _ & _ & H).
    destruct (H body Hin) as (_ & _ & Hnone).
    exact (Hnone toStringValue PasswordCannotBeBlank k I).
Defined.

(** * Further properties of the module *)

(** ** Session ids *)

Lemma hexDigit_alphabet n :
  In (hexDigit n) (list_ascii_of_string "0123456789abcdef").
Proof.
  unfold hexDigit. generalize (N.to_nat n). intros k.
  do 16 (destruct k as [|k]; [simpl; tauto|]).
  simpl. tauto.
Qed.

Lemma toHex_cons b bs :
  toHex (b :: bs) =
  String (hexDigit (Byte.to_N b / 16)) (String (hexDigit (Byte.to_N b mod 16)) (toHex bs)).
Proof. reflexivity. Qed.

(** [hexByte] can be read back. *)
Lemma hexByte_decode :
  exists decode : ascii -> ascii -> byte,
    forall b, decode (hexDigit (Byte.to_N b / 16)) (hexDigit (Byte.to_N b mod 16)) = b.
Proof.
  pose (digit := fun c : ascii =>
    match index 0 (String c EmptyString) "0123456789abcdef" with
    | Some k => N.of_nat k
    | None => 0%N
    end).
  exists (fun c1 c2 => default x00 (Byte.of_N (digit c1 * 16 + digit c2)%N)).
  intros b. destruct b; reflexivity.
Qed.

(** X1. The session id is the lower-case hex rendering of the random
    bytes: two characters per byte, each one of 0-9 or a-f.  With the 16
    bytes [crypto.randomBytes] is asked for, the id has 32 characters. *)
Theorem sessionId_is_lowercase_hex env :
  length (randomBytes env ACCEPTABLE_RANDOM_BYTES_FOR_SAFE_SESSION_ID) =
    ACCEPTABLE_RANDOM_BYTES_FOR_SAFE_SESSION_ID ->
  String.length (newSessionId env) = 32%nat /\
  (forall c, In c (list_ascii_of_string (newSessionId env)) ->
             In c (list_ascii_of_string "0123456789abcdef")) /\
  (forall bs, String.length (toHex bs) = (2 * length bs)%nat).
Proof.
  assert (forall bs, String.length (toHex bs) = (2 * length bs)%nat) as Hlen.
  { induction bs as [|b bs IH]; [reflexivity|].
    rewrite toHex_cons. cbn [String.length length]. rewrite IH. lia. }
  intros H16. unfold newSessionId. split; [|split; [|exact Hlen]].
  - rewrite Hlen, H16. reflexivity.
  - generalize (randomBytes env ACCEPTABLE_RANDOM_BYTES_FOR_SAFE_SESSION_ID).
    induction l as [|b bs IH]; intros c; [intros []|].
    rewrite toHex_cons. cbn [list_ascii_of_string In].
    intros [<- | [<- | Hc]]; [apply hexDigit_alphabet | apply hexDigit_alphabet |].
    by apply IH.
Qed.

(** X2. Different random bytes give different session ids: the hex
    rendering loses nothing. *)
Theorem toHex_injective bs1 bs2 :
  toHex bs1 = toHex bs2 -> bs1 = bs2.
Proof.
  destruct hexByte_decode as [decode Hdecode].
  revert bs2. induction bs1 as [|b1 bs1 IH]; intros [|b2 bs2]; try done.
  rewrite !toHex_cons. intros [= H1 H2 Hrest].
  f_equal; [|by apply IH].
  rewrite <- (Hdecode b1), <- (Hdecode b2). by rewrite H1, H2.
Qed.

(** ** The session cookie *)

(** Closes a branch of a run in which the effect looked for was not
    emitted. *)
Ltac not_emitted :=
  let H := fresh in
  intros H; cbn [In] in H;
  repeat match goal with
         | H' : _ \/ _ |- _ => destruct H'
         | H' : False |- _ => destruct H'
         end;
  try discriminate.

(** The two tests of [authenticateUser] on a stored session. *)
Ltac js_auth_cases :=
  repeat match goal with
         | |- context [if truthy ?v then _ else _] =>
             destruct (truthy v) eqn:?; js_open
         | |- context [if sessionExpired ?P ?e ?s then _ else _] =>
             destruct (sessionExpired P e s) eqn:?; js_open
         end.

(** A run that set the cookie is a sign-up or sign-in that went all the
    way. *)
Lemma cookie_inv P env o req w cname cvalue opts :
  In (Cookie cname cvalue opts) (response (handler P env o req) w) ->
  (o = SignUp \/ o = SignIn) /\
  cname = SESSION_COOKIE_NAME /\
  cvalue = newSessionId env /\
  opts = cookieResponseHeaders env /\
  exists user,
    response (handler P env o req) w = [Cookie cname cvalue opts; Json user] /\
    sessions (store_after (handler P env o req) w) =
      <[newSessionId env := newSession P env (prop user "user-id")]> (sessions w).
Proof.
  destruct w as [us ss], req as [un pw ck], o; js_run; js_auth_cases; not_emitted.
  all: match goal with H : Cookie _ _ _ = Cookie _ _ _ |- _ =>
         injection H as <- <- <- end.
  all: repeat split; auto.
  all: eexists; split; [reflexivity|]; by rewrite ?prop_newUser_userId.
Qed.

(** X3. Whenever a handler sets a cookie, it is the sign-up or sign-in
    handler, the cookie is named "sessionId", and its value is the id of a
    session item stored by this very request, holding the id of the user
    whose record is sent back and the present time as creation date.  The
    cookie lives as long as the session (maxAge is SESSION_LENGTH), is
    http-only and same-site Strict, and is marked secure exactly when
    NODE_ENV is "production". *)
Theorem cookie_names_the_stored_session P env o req w cname cvalue opts :
  In (Cookie cname cvalue opts) (response (handler P env o req) w) ->
  (o = SignUp \/ o = SignIn) /\
  cname = "sessionId" /\
  (exists user,
     In (Json user) (response (handler P env o req) w) /\
     sessions (store_after (handler P env o req) w) !! cvalue =
       Some {[ "session-id" := VStr cvalue;
               "user-id" := prop user "user-id";
               "creation-date" := VStr (toISOString P (now env)) ]}) /\
  maxAge opts = SESSION_LENGTH /\
  httpOnly opts = true /\
  sameSite opts = "Strict" /\
  (secure opts = true <-> NODE_ENV env = VStr "production").
Proof.
  intros (Ho & -> & -> & -> & user & Hr & Hs)%cookie_inv.
  split; [exact Ho|]. split; [reflexivity|]. split.
  - exists user. rewrite Hr, Hs. split; [simpl; auto|].
    by rewrite lookup_insert_eq.
  - cbn [cookieResponseHeaders maxAge httpOnly sameSite secure].
    repeat split; try done.
    + apply bool_decide_eq_true.
    + intros. by apply bool_decide_eq_true.
Qed.

(** X4. The cookie a sign-up or sign-in hands out authenticates: while the
    session is not older than SESSION_LENGTH (and the creation date reads
    back from its ISO form), [authenticateUser] with that cookie on the
    resulting store lets the request through as the user whose record was
    sent back. *)
Theorem issued_cookie_authenticates P env o req w cname cvalue opts env' :
  In (Cookie cname cvalue opts) (response (handler P env o req) w) ->
  Date_parse P (toISOString P (now env)) = Some (now env) ->
  fault env' (DdbGet Sessions (VStr cvalue)) = None ->
  now env' - now env <= SESSION_LENGTH ->
  exists user,
    In (Json user) (response (handler P env o req) w) /\
    response (authenticateUser P env' (withCookie cvalue))
      (store_after (handler P env o req) w) =
    authenticatedAs (prop user "user-id").
Proof.
  intros (_ & _ & -> & _ & user & Hr & Hs)%cookie_inv Hdate Hget Hage.
  exists user. rewrite Hr. split; [simpl; auto|].
  rewrite authenticateUser_response by done. rewrite Hs, lookup_insert_eq.
  rewrite prop_newSession_invalidated, prop_newSession_userId. cbn [truthy].
  assert (creationDate P (newSession P env (prop user "user-id")) = Some (now env)) as Hc.
  { unfold creationDate. rewrite prop_newSession_creationDate. exact Hdate. }
  apply (sessionExpired_false P env') in Hc. apply Hc in Hage. by rewrite Hage.
Qed.

(** ** Exceptions and failed session creation *)

(** X5. [signIn] lower-cases the username while it builds the lookup
    parameters, before its [try].  With a username that is not a string
    the TypeError therefore escapes the handler: no call is made on the
    response, no service is called and the store is untouched.  [signUp]
    lower-cases inside its [try]: given the same username, a string
    password and a hash call that goes through, it answers with the
    Internal Server Error status and the TypeError's text, having called
    nothing but the hash and written nothing. *)
Theorem signIn_throws_on_a_username_that_is_not_a_string P env req w :
  (forall u, body_username req <> VStr u) ->
  (exists msg, result (signIn P env req) w = Throw (newTypeError msg)) /\
  response (signIn P env req) w = [] /\
  trace (signIn P env req) w = [] /\
  store_after (signIn P env req) w = w /\
  (forall p,
     body_password req = VStr p ->
     fault env (BcryptHash (VStr p) SALT_ROUNDS) = None ->
     exists msg,
       response (signUp P env req) w =
         [Status (Some (statusCodes P "Internal Server Error"));
          Send {[ "err" := VStr ("Failed to sign up with TypeError: " +:+ msg) ]}] /\
       trace (signUp P env req) w = [BcryptHash (VStr p) SALT_ROUNDS] /\
       store_after (signUp P env req) w = w).
Proof.
  destruct w as [us ss], req as [un pw ck]. cbn [body_username body_password].
  intros Hnot.
  destruct un as [| | b | n | u]; [..|by destruct (Hnot u)].
  all: split; [js_run; eauto|].
  all: split; [js_run; reflexivity|].
  all: split; [js_run; reflexivity|].
  all: split; [js_run; reflexivity|].
  all: intros p -> Hhash; js_eval; eauto.
Qed.

(** X6. Nothing is rolled back when the session cannot be stored.  When
    [signUp] has inserted the user and the session [put] then fails with
    [e], the user record stays in the table and no session item is
    stored; the three calls made are the hash and the two [put]s.  The
    first call on the response is [status(e.statusCode)], the error's own
    code with no fallback, and the run never sets the cookie and never
    sends the user record. *)
Theorem signUp_keeps_user_when_session_fails P env w u p ck e :
  users w !! toLowerCase P u = None ->
  let user := newUser env (toLowerCase P u)
                (bcrypt_hash P p SALT_ROUNDS (bcryptSalt env)) in
  let session := newSession P env (VStr (uuidv4 env)) in
  fault env (BcryptHash (VStr p) SALT_ROUNDS) = None ->
  fault env (DdbPut Users user true) = None ->
  fault env (DdbPut Sessions session false) = Some e ->
  let h := signUp P env (mkRequest (VStr u) (VStr p) ck) in
  users (store_after h w) = <[toLowerCase P u := user]> (users w) /\
  sessions (store_after h w) = sessions w /\
  trace h w =
    [BcryptHash (VStr p) SALT_ROUNDS; DdbPut Users user true;
     DdbPut Sessions session false] /\
  (exists rest, response h w = Status (statusCode e) :: rest) /\
  (forall cname cvalue opts, ~ In (Cookie cname cvalue opts) (response h w)) /\
  (forall body, ~ In (Json body) (response h w)).
Proof.
  intros Hfree user session Hhash Hput Hsess h. subst user session h.
  destruct w as [us ss]. cbn [users sessions] in *.
  js_eval.
  - match goal with H : bool_decide _ = true |- _ =>
      apply bool_decide_eq_true in H; rewrite ?Hfree in H; by destruct H end.
  - split; [reflexivity|]. split; [reflexivity|]. split; [reflexivity|].
    split; [by eexists|].
    split; [intros cname cvalue opts | intros body];
      cbn [In]; intros H; decompose [or] H; discriminate || contradiction.
Qed.

(** X7. A service that fails during [signIn] ends in [signIn]'s own
    [catch], whose text is the one of [signUp].  When the users lookup, or
    the comparison for a stored user, fails with [e], [signIn] answers with
    [e.statusCode], or Internal Server Error when there is none, and the
    text "Failed to sign up with" followed by the error; a password that
    is not a string makes [bcrypt.compare] reject and is answered with
    Internal Server Error.  In each case the store is unchanged and no
    session is created. *)
Theorem signIn_surfaces_service_failures P env w u password ck :
  let h := signIn P env (mkRequest (VStr u) password ck) in
  let lookup := DdbGet Users (VStr (toLowerCase P u)) in
  (forall e,
     fault env lookup = Some e ->
     response h w =
       [Status (Some (statusCode_or e (statusCodes P "Internal Server Error")));
        Send {[ "err" := VStr ("Failed to sign up with " +:+ Error_toString e) ]}] /\
     trace h w = [lookup] /\
     store_after h w = w) /\
  (forall user e,
     fault env lookup = None ->
     users w !! toLowerCase P u = Some user ->
     let compare := BcryptCompare password (prop user "password-hash") in
     fault env compare = Some e ->
     response h w =
       [Status (Some (statusCode_or e (statusCodes P "Internal Server Error")));
        Send {[ "err" := VStr ("Failed to sign up with " +:+ Error_toString e) ]}] /\
     trace h w = [lookup; compare] /\
     store_after h w = w) /\
  (forall user,
     fault env lookup = None ->
     users w !! toLowerCase P u = Some user ->
     let compare := BcryptCompare password (prop user "password-hash") in
     fault env compare = None ->
     (forall p, password <> VStr p) ->
     exists msg,
       response h w =
         [Status (Some (statusCodes P "Internal Server Error"));
          Send {[ "err" := VStr ("Failed to sign up with Error: " +:+ msg) ]}] /\
       trace h w = [lookup; compare] /\
       store_after h w = w).
Proof.
  intros h lookup. subst h lookup. destruct w as [us ss]. cbn [users].
  split; [|split].
  - intros e Hget. js_eval. by repeat split.
  - intros user e Hget Hu Hcmp. js_eval. by repeat split.
  - intros user Hget Hu Hcmp Hnot.
    destruct password as [| | b | n | p]; [..|by destruct (Hnot p)].
    all: js_eval; eexists; by repeat split.
Qed.

(** X8. [signIn] never writes the users table, and it changes the store
    only when it succeeds: a run that sends no user record leaves the
    store as it was and sets no cookie, and a run that sends one has added
    exactly one session item, for that user. *)
Theorem signIn_writes_only_on_success P env req w :
  users (store_after (signIn P env req) w) = users w /\
  ((forall user, ~ In (Json user) (response (signIn P env req) w)) ->
     store_after (signIn P env req) w = w /\
     forall cname cvalue opts,
       ~ In (Cookie cname cvalue opts) (response (signIn P env req) w)) /\
  (forall user,
     In (Json user) (response (signIn P env req) w) ->
     sessions (store_after (signIn P env req) w) =
       <[newSessionId env := newSession P env (prop user "user-id")]> (sessions w)).
Proof.
  split; [|split].
  - destruct w as [us ss], req as [un pw ck]. js_run; reflexivity.
  - intros Hno. split.
    + revert Hno. destruct w as [us ss], req as [un pw ck]. js_run; intros Hno;
        try reflexivity.
      exfalso. eapply Hno. right. left. reflexivity.
    + intros cname cvalue opts (_ & _ & _ & _ & user & Hr & _)%(cookie_inv P env SignIn).
      apply (Hno user). cbn [handler] in Hr. rewrite Hr. right. left. reflexivity.
  - intros user. destruct w as [us ss], req as [un pw ck]. js_run; not_emitted.
    match goal with H : Json _ = Json _ |- _ => injection H as <- end.
    reflexivity.
Qed.

(** ** The users table *)

(** A request leaves the users table alone, unless it is a sign-up that
    inserts a record under a free key. *)
Lemma users_frame P env o req w :
  let w' := store_after (handler P env o req) w in
  users w' = users w \/
  (o = SignUp /\
   exists k user, users w !! k = None /\ users w' = <[k := user]> (users w)).
Proof.
  destruct w as [us ss], req as [un pw ck], o; js_run; js_auth_cases; auto.
  all: right; split; [reflexivity|]; eexists _, _; split; [|reflexivity].
  all: by apply is_Some_lookup_false.
Qed.

(** X9. A stored user record is never changed or removed, whatever
    requests follow and whatever their environments: the users table is
    written only by [signUp], and only under a key that has no record. *)
Theorem user_records_are_never_changed P w :
  (forall env o req,
     o <> SignUp -> users (store_after (handler P env o req) w) = users w) /\
  (forall requests k user,
     users w !! k = Some user ->
     users (serve P requests w) !! k = Some user).
Proof.
  split.
  - intros env o req Ho.
    destruct (users_frame P env o req w) as [H | [H _]]; [exact H | contradiction].
  - intros requests. revert w.
    induction requests as [|[[env o] req] rest IH]; intros w k user Hk; [exact Hk|].
    cbn [serve]. apply IH.
    destruct (users_frame P env o req w) as [-> | (_ & k' & user' & Hfree & ->)];
      [exact Hk|].
    rewrite lookup_insert_ne; [exact Hk | congruence].
Qed.

(** ** signOut and the other sessions *)

(** What [authenticateUser] answers depends on the store only through the
    item under the presented id. *)
Lemma authenticateUser_depends_on_item P env sid w1 w2 :
  sessions w1 !! sid = sessions w2 !! sid ->
  response (authenticateUser P env (withCookie sid)) w1 =
  response (authenticateUser P env (withCookie sid)) w2.
Proof.
  destruct w1 as [us1 ss1], w2 as [us2 ss2]. cbn [sessions]. intros H.
  js_cbv. destruct (fault env _); js_cbv; [reflexivity|].
  rewrite H. destruct (ss2 !! sid); js_cbv; [|reflexivity].
  js_auth_cases; reflexivity.
Qed.

(** X10. [signOut] touches only the session whose id it is given: every
    other session item, and the whole users table, stay as they were, so
    [authenticateUser] answers for any other id as it did before. *)
Theorem signOut_leaves_other_sessions P env req w sid :
  cookies_sessionId req <> VStr sid ->
  let w' := store_after (signOut P env req) w in
  sessions w' !! sid = sessions w !! sid /\
  users w' = users w /\
  forall env',
    response (authenticateUser P env' (withCookie sid)) w' =
    response (authenticateUser P env' (withCookie sid)) w.
Proof.
  intros Hother w'.
  assert (sessions w' !! sid = sessions w !! sid) as Hsame.
  { subst w'. destruct w as [us ss], req as [un pw ck].
    cbn [cookies_sessionId] in Hother. js_run; try reflexivity.
    rewrite lookup_insert_ne; [reflexivity | congruence]. }
  split; [exact Hsame|]. split.
  - subst w'. destruct w as [us ss], req as [un pw ck]. js_run; reflexivity.
  - intros env'. by apply authenticateUser_depends_on_item.
Qed.

(** X11. Signing out twice is the same as signing out once: the second
    [signOut] with the same id succeeds again and leaves the store exactly
    as the first left it. *)
Theorem signOut_twice_is_signOut_once P env1 env2 w sid :
  fault env1 (DdbUpdate Sessions (VStr sid) "invalidated" (VBool true)) = None ->
  fault env2 (DdbUpdate Sessions (VStr sid) "invalidated" (VBool true)) = None ->
  let w1 := store_after (signOut P env1 (withCookie sid)) w in
  store_after (signOut P env2 (withCookie sid)) w1 = w1 /\
  response (signOut P env2 (withCookie sid)) w1 =
    response (signOut P env1 (withCookie sid)) w.
Proof.
  intros H1 H2 w1. subst w1. unfold store_after, response.
  rewrite !signOut_run. cbn zeta. rewrite H1. cbn [snd tables out]. rewrite H2.
  cbn [snd tables out users sessions]. split; [|reflexivity].
  f_equal. rewrite lookup_insert_eq. cbn [default from_option]. unfold id.
  by rewrite (insert_insert_eq (M := gmap string) _ "invalidated"), insert_insert_eq.
Qed.

(** X12. [signOut] does not check that the session exists.  Given an id
    with no session item, the update still goes through and leaves an item
    holding only the id and [invalidated = true]; [authenticateUser] with
    that id, which answered "Session does not exist" before, answers
    "Invalid session" afterwards. *)
Theorem signOut_of_unknown_id_leaves_a_stub P env env' w sid :
  sessions w !! sid = None ->
  fault env (DdbUpdate Sessions (VStr sid) "invalidated" (VBool true)) = None ->
  fault env' (DdbGet Sessions (VStr sid)) = None ->
  let w' := store_after (signOut P env (withCookie sid)) w in
  sessions w' !! sid =
    Some {[ "invalidated" := VBool true; "session-id" := VStr sid ]} /\
  response (authenticateUser P env' (withCookie sid)) w =
    unauthorized P "Session does not exist" /\
  response (authenticateUser P env' (withCookie sid)) w' =
    unauthorized P "Invalid session".
Proof.
  intros Hnone Hupd Hget w'.
  assert (sessions w' !! sid =
          Some {[ "invalidated" := VBool true; "session-id" := VStr sid ]}) as Hstub.
  { subst w'. unfold store_after. rewrite signOut_run. cbn zeta. rewrite Hupd.
    cbn [snd tables sessions]. by rewrite lookup_insert_eq, Hnone. }
  split; [exact Hstub|].
  rewrite !authenticateUser_response by done. rewrite Hnone, Hstub.
  split; reflexivity.
Qed.

(** ** Expiry is final *)

Lemma unauthorized_inj P m1 m2 : unauthorized P m1 = unauthorized P m2 -> m1 = m2.
Proof.
  unfold unauthorized, readable. intros H.
  apply (f_equal (fun l => match l with
                           | [_; Send o] => o !! "readableMessage"
                           | _ => None
                           end)) in H.
  cbv beta iota in H. rewrite !lookup_singleton_eq in H. congruence.
Qed.

Lemma authenticateUser_expired_inv P env w sid :
  fault env (DdbGet Sessions (VStr sid)) = None ->
  response (authenticateUser P env (withCookie sid)) w = unauthorized P "Session expired" ->
  exists session,
    sessions w !! sid = Some session /\
    truthy (prop session "invalidated") = false /\
    sessionExpired P env session = true.
Proof.
  intros Hget. rewrite authenticateUser_response by done.
  destruct (sessions w !! sid) as [session|]; [|by intros [=]%unauthorized_inj].
  destruct (truthy _) eqn:Hinv; [by intros [=]%unauthorized_inj|].
  destruct (sessionExpired _ _ _) eqn:Hexp; [by eauto|].
  unfold authenticatedAs, unauthorized, readable. discriminate.
Qed.

(** X13. Expiry is final.  If [authenticateUser] answered "Session
    expired" for an id, then at any later time, in any store reached by
    further requests (drawing ids not in use), it never lets that id
    through again: the answer is "Session expired", or "Invalid session"
    once the session has been signed out. *)
Theorem expired_session_never_authenticates_again P env1 env2 w w' sid :
  fault env1 (DdbGet Sessions (VStr sid)) = None ->
  response (authenticateUser P env1 (withCookie sid)) w = unauthorized P "Session expired" ->
  reachable_from P w w' ->
  now env1 <= now env2 ->
  fault env2 (DdbGet Sessions (VStr sid)) = None ->
  response (authenticateUser P env2 (withCookie sid)) w' = unauthorized P "Session expired" \/
  response (authenticateUser P env2 (withCookie sid)) w' = unauthorized P "Invalid session".
Proof.
  intros Hget1 Hexp Hreach Hlater Hget2.
  destruct (authenticateUser_expired_inv P env1 w sid Hget1 Hexp)
    as (session & Hs & Hinv & Hold).
  rewrite authenticateUser_response by done.
  destruct (reachable_session P w w' sid session Hreach Hs) as [-> | ->].
  - left. rewrite Hinv.
    apply sessionExpired_true in Hold as (c & Hc & Hage).
    assert (sessionExpired P env2 session = true) as ->; [|reflexivity].
    apply sessionExpired_true. exists c. split; [exact Hc | lia].
  - right. by rewrite prop_invalidated_set.
Qed.

(** X14. [authenticateUser] only reads: it makes exactly one [get] on the
    sessions table and never changes the store.  Every run either sets
    [res.locals.userId] and calls [next()] once, sending nothing, or sends
    exactly one status and body and does not call [next()]. *)
Theorem authenticateUser_reads_once_and_answers_once P env req w :
  store_after (authenticateUser P env req) w = w /\
  trace (authenticateUser P env req) w = [DdbGet Sessions (cookies_sessionId req)] /\
  ((exists userId,
      response (authenticateUser P env req) w = [SetLocalsUserId userId; Next]) \/
   (exists code body,
      response (authenticateUser P env req) w = [Status (Some code); Send body])).
Proof.
  split; [apply authenticateUser_store|].
  destruct w as [us ss], req as [un pw ck].
  split; js_run; js_auth_cases; try reflexivity; eauto.
Qed.

(** ** Usernames *)

(** X15. The username is matched without regard to case: after a
    successful [signUp], a [signIn] with the same password and any
    spelling of the username that lower-cases to the same string returns
    the record that [signUp] returned. *)
Theorem signIn_ignores_username_case P env1 env2 w u1 u2 p ck1 ck2 user :
  In (Json user) (response (signUp P env1 (mkRequest (VStr u1) (VStr p) ck1)) w) ->
  toLowerCase P u2 = toLowerCase P u1 ->
  bcrypt_compare P p (bcrypt_hash P p SALT_ROUNDS (bcryptSalt env1)) = true ->
  (forall c, fault env2 c = None) ->
  response (signIn P env2 (mkRequest (VStr u2) (VStr p) ck2))
    (store_after (signUp P env1 (mkRequest (VStr u1) (VStr p) ck1)) w) =
  [Cookie SESSION_COOKIE_NAME (newSessionId env2) (cookieResponseHeaders env2);
   Json user].
Proof.
  intros (u & p' & Hu & Hp & Huser & Hfree & Hrun)%signUp_success_inv Hcase Hbcrypt Hcalm.
  cbn [body_username body_password] in Hu, Hp.
  injection Hu as <-. injection Hp as <-.
  unfold store_after at 1. rewrite Hrun. cbn [snd tables].
  unfold response.
  rewrite (signIn_success P env2 _ u2 p ck2 user
             (bcrypt_hash P p SALT_ROUNDS (bcryptSalt env1))); try done.
  - cbn [users]. by rewrite Hcase, lookup_insert_eq.
  - subst user. apply prop_newUser_hash.
Qed.

(** ** The calls a handler makes *)

(** X16. The handlers call their services in these ways only.  Hashing
    is done by [signUp], on the password of the request and with
    SALT_ROUNDS; comparing by [signIn].  The users table is read by
    [signIn] and written by [signUp], always with the
    [attribute_not_exists] condition, so nothing overwrites a user.  The
    sessions table is read by [authenticateUser], under the cookie's id;
    written by [signUp] and [signIn] with a new session item, without a
    condition; and updated by [signOut], which sets [invalidated] to true
    under the cookie's id.  There is no other call. *)
Theorem handlers_call_services_only_this_way P env o req w c :
  In c (trace (handler P env o req) w) ->
  match c with
  | BcryptHash data rounds =>
      o = SignUp /\ data = body_password req /\ rounds = SALT_ROUNDS
  | BcryptCompare data _ => o = SignIn /\ data = body_password req
  | DdbGet Users _ => o = SignIn
  | DdbGet Sessions key => o = AuthenticateUser /\ key = cookies_sessionId req
  | DdbPut Users _ ifAbsent => o = SignUp /\ ifAbsent = true
  | DdbPut Sessions item ifAbsent =>
      (o = SignUp \/ o = SignIn) /\ ifAbsent = false /\
      exists userId, item = newSession P env userId
  | DdbUpdate t key attr v =>
      o = SignOut /\ t = Sessions /\ key = cookies_sessionId req /\
      attr = "invalidated" /\ v = VBool true
  end.
Proof.
  destruct w as [us ss], req as [un pw ck], o; js_run; js_auth_cases; not_emitted.
  all: subst c; cbn [body_password cookies_sessionId]; repeat split; eauto.
Qed.

(** ** The error classes *)

(** X17. An error of the taxonomy can be told by its [name]: two errors
    with the same name are of the same class, and, unless that class is
    AppIdNotValid (whose status is the caller's), they carry the same
    status.  Only UserCanceledSignIn, UserAlreadySignedIn and
    AppIdNotValid ever carry a username. *)
Theorem error_name_determines_class_and_status P String_ c1 c2 :
  error_name (construct P String_ c1) = error_name (construct P String_ c2) ->
  sameClass c1 c2 /\
  (error_name (construct P String_ c1) <> "AppIdNotValid" ->
   error_status (construct P String_ c1) = error_status (construct P String_ c2)) /\
  (error_username (construct P String_ c1) <> VUndefined ->
   In (error_name (construct P String_ c1))
      ["UserCanceledSignIn"; "UserAlreadySignedIn"; "AppIdNotValid"]).
Proof.
  destruct c1, c2; cbn [construct error_name error_status error_username sameClass];
    intros Hname; try discriminate Hname.
  all: split; [exact I|]; split; [try reflexivity; intros []; reflexivity|].
  all: try (intros []; reflexivity).
  all: intros _; simpl; tauto.
Qed.

(** ** Stored items carry their key *)

Lemma users_frame_record P env o req w :
  let w' := store_after (handler P env o req) w in
  users w' = users w \/
  exists k h, users w' = <[k := newUser env k h]> (users w).
Proof.
  destruct w as [us ss], req as [un pw ck], o; js_run; js_auth_cases; eauto.
Qed.

Lemma sessions_frame P env o req w :
  let w' := store_after (handler P env o req) w in
  sessions w' = sessions w \/
  (exists uid, sessions w' = <[newSessionId env := newSession P env uid]> (sessions w)) \/
  (exists sid,
     sessions w' =
     <[sid := <["invalidated" := VBool true]>
                (default {[ "session-id" := VStr sid ]} (sessions w !! sid))]> (sessions w)).
Proof.
  destruct o; cbn [handler].
  - destruct (signUp_sessions P env req w) as [H | H]; auto.
  - destruct (signIn_sessions P env req w) as [H | H]; auto.
  - destruct (signOut_sessions P env req w) as [H | H]; auto.
  - rewrite authenticateUser_store. auto.
Qed.

(** X18. The store keeps its items under their own keys.  If every user
    record is stored under its [username] and has a string
    [password-hash] and [user-id], and every session item is stored under
    its [session-id], then the same holds after any list of requests; in
    particular it holds of every store the module builds from an empty
    one. *)
Theorem stored_items_carry_their_key P requests w :
  keyed w -> keyed (serve P requests w).
Proof.
  revert w. induction requests as [|[[env o] req] rest IH]; intros w Hw; [exact Hw|].
  cbn [serve]. apply IH. clear IH. destruct Hw as [Husers Hsessions]. split.
  - intros k user.
    destruct (users_frame_record P env o req w) as [-> | (k' & h & ->)]; [by auto|].
    rewrite lookup_insert. case_decide as Hk; [|by auto].
    intros [= <-]. subst k'. by eexists _, _.
  - intros sid session.
    destruct (sessions_frame P env o req w) as [-> | [[uid ->] | [sid' ->]]]; [by auto| |].
    + rewrite lookup_insert. case_decide as Hk; [|by auto].
      intros [= <-]. subst sid. apply prop_newSession_key.
    + rewrite lookup_insert. case_decide as Hk; [|by auto].
      intros [= <-]. subst sid'. rewrite prop_insert_invalidated by done.
      destruct (sessions w !! sid) as [old|] eqn:Hold; cbn [default from_option].
      * by apply Hsessions.
      * unfold prop. by rewrite lookup_singleton_eq.
Qed.

(** ** Authentication fails closed *)

(** X19. [authenticateUser] calls [next()] only after it has read,
    under a string session id and with the lookup succeeding, a stored
    session that is neither invalidated nor expired; the user id it hands
    on is that session's.  A request with no string cookie, or whose
    lookup fails, is never let through. *)
Theorem authenticateUser_fails_closed P env req w :
  In Next (response (authenticateUser P env req) w) ->
  exists sid session,
    cookies_sessionId req = VStr sid /\
    fault env (DdbGet Sessions (VStr sid)) = None /\
    sessions w !! sid = Some session /\
    truthy (prop session "invalidated") = false /\
    sessionExpired P env session = false /\
    response (authenticateUser P env req) w =
      [SetLocalsUserId (prop session "user-id"); Next].
Proof.
  destruct w as [us ss], req as [un pw ck]. cbn [cookies_sessionId sessions].
  js_run; js_auth_cases; not_emitted.
  eexists _, _. repeat split; eauto.
Qed.

(** ** A drawn id that is already in use *)

(** X20. [createSession] does not check that the id it draws is unused,
    and its [put] has no condition.  If a sign-up or sign-in that sets the
    cookie drew the id of a session that was signed out, the stored item
    is replaced by the new session: [authenticateUser], which answered
    "Invalid session" for that id, now lets it through as the new user
    (inside the session length, the date reading back from its ISO
    form). *)
Theorem drawn_id_in_use_replaces_the_session P env o req w cname cvalue opts old env' :
  In (Cookie cname cvalue opts) (response (handler P env o req) w) ->
  sessions w !! cvalue = Some old ->
  truthy (prop old "invalidated") = true ->
  Date_parse P (toISOString P (now env)) = Some (now env) ->
  fault env' (DdbGet Sessions (VStr cvalue)) = None ->
  now env' - now env <= SESSION_LENGTH ->
  response (authenticateUser P env' (withCookie cvalue)) w =
    unauthorized P "Invalid session" /\
  exists user,
    sessions (store_after (handler P env o req) w) !! cvalue =
      Some (newSession P env (prop user "user-id")) /\
    response (authenticateUser P env' (withCookie cvalue))
      (store_after (handler P env o req) w) =
    authenticatedAs (prop user "user-id").
Proof.
  intros Hcookie Hold Hinv Hdate Hget Hage. split.
  - rewrite authenticateUser_response by done. by rewrite Hold, Hinv.
  - apply cookie_inv in Hcookie as (_ & _ & -> & _ & user & Hr & Hs).
    exists user. split; [by rewrite Hs, lookup_insert_eq|].
    rewrite authenticateUser_response by done. rewrite Hs, lookup_insert_eq.
    rewrite prop_newSession_invalidated, prop_newSession_userId. cbn [truthy].
    assert (creationDate P (newSession P env (prop user "user-id")) = Some (now env)) as Hc.
    { unfold creationDate. rewrite prop_newSession_creationDate. exact Hdate. }
    apply (sessionExpired_false P env') in Hc. apply Hc in Hage. by rewrite Hage.
Qed.

(** * The further properties on the concrete history *)

Lemma sessionId_is_lowercase_hex_witness :
  String.length aliceSession = 32%nat /\
  aliceSession = "2a2a2a2a2a2a2a2a2a2a2a2a2a2a2a2a".
Proof.
  split; [|reflexivity].
  apply (sessionId_is_lowercase_hex (calm 0 x2a)). reflexivity.
Defined.

Lemma toHex_injective_witness :
  toHex [x00; xff; x2a] = "00ff2a" /\ [x00; xff; x2a] = [x00; xff; x2a].
Proof.
  split; [reflexivity|]. apply toHex_injective. reflexivity.
Defined.

Lemma signedUp_cookie :
  In (Cookie "sessionId" aliceSession (cookieResponseHeaders (calm 0 x2a)))
     (response (handler node (calm 0 x2a) SignUp alice) emptyStore).
Proof.
  change (In (Cookie "sessionId" aliceSession (cookieResponseHeaders (calm 0 x2a)))
            (response (signUp node (calm 0 x2a) alice) emptyStore)).
  rewrite signedUp_response. left. reflexivity.
Qed.

Lemma cookie_names_the_stored_session_witness :
  maxAge (cookieResponseHeaders (calm 0 x2a)) = 86400000 /\
  secure (cookieResponseHeaders (calm 0 x2a)) = true /\
  exists user,
    In (Json user) (response (handler node (calm 0 x2a) SignUp alice) emptyStore) /\
    sessions signedUp !! aliceSession =
      Some {[ "session-id" := VStr aliceSession;
              "user-id" := prop user "user-id";
              "creation-date" := VStr "2019-09-01T00:00:00.000Z" ]}.
Proof.
  destruct (cookie_names_the_stored_session node (calm 0 x2a) SignUp alice emptyStore
              _ _ _ signedUp_cookie) as (_ & _ & (user & Hj & Hs) & Hage & _ & _ & Hsec).
  split; [exact Hage|]. split; [by apply Hsec|].
  exists user. split; [exact Hj|]. exact Hs.
Defined.

Lemma issued_cookie_authenticates_witness :
  exists user,
    In (Json user) (response (handler node (calm 0 x2a) SignUp alice) emptyStore) /\
    response (authenticateUser node (calm 3600000 x00) (withCookie aliceSession)) signedUp =
      authenticatedAs (prop user "user-id").
Proof.
  apply (issued_cookie_authenticates node (calm 0 x2a) SignUp alice emptyStore
           _ _ _ (calm 3600000 x00) signedUp_cookie); reflexivity || discriminate.
Defined.

Lemma signIn_throws_on_a_username_that_is_not_a_string_witness :
  (exists msg,
     result (signIn node (calm 0 x00) (withBody (VNum 7) (VStr "pw"))) signedUp =
       Throw (newTypeError msg)) /\
  response (signIn node (calm 0 x00) (withBody (VNum 7) (VStr "pw"))) signedUp = [] /\
  store_after (signUp node (calm 0 x00) (withBody (VNum 7) (VStr "pw"))) signedUp = signedUp.
Proof.
  destruct (signIn_throws_on_a_username_that_is_not_a_string node (calm 0 x00)
              (withBody (VNum 7) (VStr "pw")) signedUp)
    as (Hthrow & Hresp & _ & _ & Hup); [discriminate|].
  destruct (Hup "pw" eq_refl eq_refl) as (msg & _ & _ & Hstore).
  split; [exact Hthrow|]. split; [exact Hresp | exact Hstore].
Defined.

Lemma signUp_keeps_user_when_session_fails_witness :
  let h := signUp node (sessionsDown 0 x2a) alice in
  users (store_after h emptyStore) = <["alice" := aliceRecord]> (users emptyStore) /\
  sessions (store_after h emptyStore) = sessions emptyStore /\
  (exists rest, response h emptyStore = Status (Some 400) :: rest).
Proof.
  destruct (signUp_keeps_user_when_session_fails node (sessionsDown 0 x2a) emptyStore
              "Alice" "correcthorse" VUndefined throttled eq_refl eq_refl eq_refl eq_refl)
    as (Hu & Hs & _ & Hfirst & _).
  split; [exact Hu|]. split; [exact Hs | exact Hfirst].
Defined.

Lemma signIn_surfaces_service_failures_witness :
  response (signIn node (stormy 0 x00) alice) signedUp =
    [Status (Some 500);
     Send {[ "err" := VStr "Failed to sign up with NetworkingError: connect ETIMEDOUT" ]}] /\
  store_after (signIn node (stormy 0 x00) alice) signedUp = signedUp /\
  store_after (signIn node (calm 0 x00) (withBody (VStr "Alice") (VNum 7))) signedUp
    = signedUp.
Proof.
  destruct (signIn_surfaces_service_failures node (stormy 0 x00) signedUp "Alice"
              (VStr "correcthorse") VUndefined) as (Hget & _).
  destruct (Hget _ eq_refl) as (Hr & _ & Hs).
  split; [exact Hr|]. split; [exact Hs|].
  destruct (signIn_surfaces_service_failures node (calm 0 x00) signedUp "Alice"
              (VNum 7) VUndefined) as (_ & _ & Hreject).
  destruct (Hreject aliceRecord eq_refl signedUp_user eq_refl) as (msg & _ & _ & Hstore);
    [discriminate | exact Hstore].
Defined.

Lemma signIn_writes_only_on_success_witness :
  store_after (signIn node (calm 9000 x07) (withBody (VStr "Alice") (VStr "wronghorse")))
    signedUp = signedUp.
Proof.
  destruct (signIn_writes_only_on_success node (calm 9000 x07)
              (withBody (VStr "Alice") (VStr "wronghorse")) signedUp) as (_ & H & _).
  apply H. intros user.
  replace (response (signIn node (calm 9000 x07)
                       (withBody (VStr "Alice") (VStr "wronghorse"))) signedUp)
    with [Status (Some 401); Send {[ "readableMessage" := VStr "Incorrect password" ]}]
    by reflexivity.
  intros [Hin | [Hin | []]]; discriminate.
Defined.

Lemma user_records_are_never_changed_witness :
  users (serve node history signedUp) !! "alice" = Some aliceRecord.
Proof.
  apply (user_records_are_never_changed node signedUp). exact signedUp_user.
Defined.

Lemma signOut_leaves_other_sessions_witness :
  sessions (store_after (signOut node (calm 7000 x00) (withCookie "0000")) signedUp)
    !! aliceSession = Some aliceSessionRecord.
Proof.
  rewrite <- signedUp_session.
  apply (signOut_leaves_other_sessions node (calm 7000 x00) (withCookie "0000") signedUp
           aliceSession).
  discriminate.
Defined.

Lemma signOut_twice_is_signOut_once_witness :
  store_after (signOut node (calm 9000 x00) (withCookie aliceSession)) signedOut = signedOut.
Proof.
  apply (signOut_twice_is_signOut_once node (calm 5000 x00) (calm 9000 x00) signedUp
           aliceSession); reflexivity.
Defined.

Lemma signOut_of_unknown_id_leaves_a_stub_witness :
  sessions (store_after (signOut node (calm 0 x00) (withCookie "0000")) emptyStore)
    !! "0000" = Some {[ "invalidated" := VBool true; "session-id" := VStr "0000" ]}.
Proof.
  apply (signOut_of_unknown_id_leaves_a_stub node (calm 0 x00) (calm 1000 x00)
           emptyStore "0000"); reflexivity.
Defined.

Lemma signedOut_reachable : reachable_from node signedUp signedOut.
Proof.
  eapply rtc_l; [|apply rtc_refl].
  apply (step_request node (calm 5000 x00) SignOut (withCookie aliceSession) signedUp).
  reflexivity.
Qed.

Lemma expired_session_never_authenticates_again_witness :
  response (authenticateUser node (calm 90000000 x00) (withCookie aliceSession)) signedOut
    = unauthorized node "Session expired" \/
  response (authenticateUser node (calm 90000000 x00) (withCookie aliceSession)) signedOut
    = unauthorized node "Invalid session".
Proof.
  apply (expired_session_never_authenticates_again node (calm 86400001 x00)
           (calm 90000000 x00) signedUp signedOut aliceSession).
  - reflexivity.
  - reflexivity.
  - exact signedOut_reachable.
  - discriminate.
  - reflexivity.
Defined.

Lemma signIn_ignores_username_case_witness :
  response (signIn node (calm 60000 x07) (withBody (VStr "ALICE") (VStr "correcthorse")))
    signedUp =
  [Cookie "sessionId" (newSessionId (calm 60000 x07))
     (cookieResponseHeaders (calm 60000 x07));
   Json aliceRecord].
Proof.
  apply (signIn_ignores_username_case node (calm 0 x2a) (calm 60000 x07) emptyStore
           "Alice" "ALICE" "correcthorse" VUndefined VUndefined aliceRecord).
  - change (In (Json aliceRecord) (response (signUp node (calm 0 x2a) alice) emptyStore)).
    rewrite signedUp_response. right. left. reflexivity.
  - reflexivity.
  - reflexivity.
  - intros c. reflexivity.
Defined.

Lemma handlers_call_services_only_this_way_witness :
  In (DdbPut Users aliceRecord true)
     (trace (handler node (calm 0 x2a) SignUp alice) emptyStore) /\
  SignUp = SignUp /\ true = true.
Proof.
  assert (In (DdbPut Users aliceRecord true)
            (trace (handler node (calm 0 x2a) SignUp alice) emptyStore)) as Hin.
  { replace (trace (handler node (calm 0 x2a) SignUp alice) emptyStore)
      with [BcryptHash (VStr "correcthorse") SALT_ROUNDS;
            DdbPut Users aliceRecord true;
            DdbPut Sessions aliceSessionRecord false] by reflexivity.
    right. left. reflexivity. }
  split; [exact Hin|].
  exact (handlers_call_services_only_this_way node (calm 0 x2a) SignUp alice emptyStore
           _ Hin).
Defined.

Lemma error_name_determines_class_and_status_witness :
  error_message (construct node toStringValue (PasswordTooShort (VNum 8))) =
    "Password too short. Must be a minimum of 8 characters." /\
  sameClass (PasswordTooShort (VNum 8)) (PasswordTooShort (VNum 12)) /\
  error_status (construct node toStringValue (PasswordTooShort (VNum 8))) =
  error_status (construct node toStringValue (PasswordTooShort (VNum 12))).
Proof.
  split; [reflexivity|].
  destruct (error_name_determines_class_and_status node toStringValue
              (PasswordTooShort (VNum 8)) (PasswordTooShort (VNum 12)) eq_refl)
    as (Hclass & Hstatus & _).
  split; [exact Hclass|]. apply Hstatus. discriminate.
Defined.

Lemma stored_items_carry_their_key_witness :
  keyed (serve node ((calm 0 x2a, SignUp, alice) :: history) emptyStore).
Proof.
  apply stored_items_carry_their_key.
  split; intros k item H; cbn [emptyStore users sessions] in H;
    rewrite lookup_empty in H; discriminate.
Defined.

Lemma authenticateUser_fails_closed_witness :
  exists sid session,
    cookies_sessionId (withCookie aliceSession) = VStr sid /\
    fault (calm 1000 x00) (DdbGet Sessions (VStr sid)) = None /\
    sessions signedUp !! sid = Some session /\
    truthy (prop session "invalidated") = false /\
    sessionExpired node (calm 1000 x00) session = false /\
    response (authenticateUser node (calm 1000 x00) (withCookie aliceSession)) signedUp =
      [SetLocalsUserId (prop session "user-id"); Next].
Proof.
  apply authenticateUser_fails_closed.
  replace (response (authenticateUser node (calm 1000 x00) (withCookie aliceSession))
             signedUp)
    with (authenticatedAs (VStr (uuidv4 (calm 0 x2a)))) by reflexivity.
  right. left. reflexivity.
Defined.

Lemma drawn_id_in_use_replaces_the_session_witness :
  response (authenticateUser node (calm 9000 x00) (withCookie aliceSession)) signedOut =
    unauthorized node "Invalid session" /\
  exists user,
    sessions (store_after (handler node (calm 7000 x2a) SignIn alice) signedOut)
      !! aliceSession = Some (newSession node (calm 7000 x2a) (prop user "user-id")) /\
    response (authenticateUser node (calm 9000 x00) (withCookie aliceSession))
      (store_after (handler node (calm 7000 x2a) SignIn alice) signedOut) =
    authenticatedAs (prop user "user-id").
Proof.
  apply (drawn_id_in_use_replaces_the_session node (calm 7000 x2a) SignIn alice signedOut
           "sessionId" aliceSession (cookieResponseHeaders (calm 7000 x2a))
           (<["invalidated" := VBool true]> aliceSessionRecord) (calm 9000 x00)).
  - replace (response (handler node (calm 7000 x2a) SignIn alice) signedOut)
      with [Cookie "sessionId" aliceSession (cookieResponseHeaders (calm 7000 x2a));
            Json aliceRecord] by reflexivity.
    left. reflexivity.
  - exact signedOut_session.
  - reflexivity.
  - reflexivity.
  - reflexivity.
  - discriminate.
Defined.
